(** * Skill selection and pipeline coordination: a shallow embedding

    The development follows the two Python modules of the repository:

    - [core/skill_loader.py]: the [Skill] class ([_parse_skill_file],
      [_extract_keywords], [relevance_score], [_get_agent_affinity]) and
      the [SkillLoader] class ([_load_all_skills], [select_skills]);
    - [core/orchestrator.py]: [Orchestrator.load_state], [save_state],
      [process_user_request], [execute_pipeline], [_build_agent_context] and
      [_log_agent_execution].

    Modelling conventions.

    - Python [str] values are lists of characters ([list ascii]); the text is
      taken to be ASCII, so [lower] only touches [A-Z] and the white space of
      [strip], [split] and the regular-expression class [\s] is the ASCII
      white space of CPython (codes 9-13, 28-31 and 32).
    - Python [float] scores are exact rationals ([Q]): the weights 0.5, 0.3,
      0.15 and 0.2 are the fractions they denote and rounding is not modelled.
      The theorems on scores are kept to what rounding preserves: the order
      between results of monotone operations, and the equality of two runs
      of the same operations.  None of them states the exact sum a section
      reaches.
    - Python [int] is [Z]; list slicing is written out with its treatment of
      negative bounds.
    - Dictionaries are association lists in insertion order; the dictionaries
      of fixed shape that the orchestrator builds are records.
    - The three regular expressions of [_parse_skill_file] are run by a small
      backtracking matcher that tries alternatives in the priority order of
      Python's [re] module.
    - The orchestrator runs in a state-and-exception monad over a world made
      of [self.state], the state file, the session log, the console input and
      the clock.  The intent parser, the agent table, the [json] codec and
      the clock are collaborators given from outside.  File writes succeed.
    - Console output ([print]) is not modelled.

    The file has three parts: the embedding of the code, the notions the
    statements and proofs are phrased with together with concrete scenarios,
    and the theorems. *)

From Stdlib Require Import Ascii String List ZArith QArith Qminmax Lia Lqa Bool Arith.
From Stdlib Require Import Sorting.Sorted DecimalString.
Import ListNotations.

(** ** Python strings *)

Module PyStr.

Definition str := list ascii.

Definition tx (s : string) : str := list_ascii_of_string s.

Definition nl : ascii := ascii_of_nat 10.

(** The double quote and the backslash. *)
Definition dquote : ascii := ascii_of_nat 34.
Definition backslash : ascii := ascii_of_nat 92.

Definition str_eqb (a b : str) : bool :=
  if list_eq_dec ascii_dec a b then true else false.

Definition is_nil {A} (l : list A) : bool :=
  match l with [] => true | _ :: _ => false end.

(** [str.isspace] on one ASCII character. *)
Definition isspace (c : ascii) : bool :=
  let n := nat_of_ascii c in
  ((9 <=? n) && (n <=? 13)) || ((28 <=? n) && (n <=? 32)).

(** [str.lower] on one ASCII character. *)
Definition lower_char (c : ascii) : ascii :=
  let n := nat_of_ascii c in
  if (65 <=? n) && (n <=? 90) then ascii_of_nat (n + 32) else c.

Definition lower (s : str) : str := map lower_char s.

(** [s.startswith(p)]. *)
Fixpoint startswith (p s : str) : bool :=
  match p, s with
  | [], _ => true
  | _ :: _, [] => false
  | a :: p', b :: s' => Ascii.eqb a b && startswith p' s'
  end.

(** [t in s] for strings: [t] occurs in [s] as a contiguous substring. *)
Fixpoint py_in (t s : str) : bool :=
  startswith t s ||
  match s with
  | [] => false
  | _ :: s' => py_in t s'
  end.

Fixpoint dropwhile (P : ascii -> bool) (s : str) : str :=
  match s with
  | [] => []
  | a :: s' => if P a then dropwhile P s' else s
  end.

Definition strip_with (P : ascii -> bool) (s : str) : str :=
  rev (dropwhile P (rev (dropwhile P s))).

(** [s.strip()]. *)
Definition strip (s : str) : str := strip_with isspace s.

(** [s.strip(chars)]. *)
Definition strip_chars (chars : str) (s : str) : str :=
  strip_with (fun c => existsb (Ascii.eqb c) chars) s.

(** Cut a string at every character satisfying [P]; empty pieces are kept,
    so the result always has at least one element. *)
Fixpoint split_by (P : ascii -> bool) (s : str) : list str :=
  match s with
  | [] => [[]]
  | a :: s' =>
      if P a then [] :: split_by P s'
      else match split_by P s' with
           | [] => [[a]]
           | w :: ws => (a :: w) :: ws
           end
  end.

(** [s.split(sep)] for a one-character separator. *)
Definition split_on (sep : ascii) (s : str) : list str :=
  split_by (Ascii.eqb sep) s.

(** [s.split()]: split on runs of white space, no empty words. *)
Definition split (s : str) : list str :=
  filter (fun w => negb (is_nil w)) (split_by isspace s).

(** [s.replace(a, b)] for single characters. *)
Definition replace (a b : ascii) (s : str) : str :=
  map (fun c => if Ascii.eqb c a then b else c) s.

(** [l[:n]] for a Python integer [n]. *)
Definition slice_to {A} (n : Z) (l : list A) : list A :=
  if (0 <=? n)%Z then firstn (Z.to_nat n) l
  else firstn (Z.to_nat (Z.of_nat (length l) + n)) l.

(** [sep.join(l)]. *)
Fixpoint join (sep : str) (l : list str) : str :=
  match l with
  | [] => []
  | [w] => w
  | w :: l' => w ++ sep ++ join sep l'
  end.

(** [set(l)] as a duplicate-free list. *)
Definition to_set (l : list str) : list str :=
  nodup (list_eq_dec ascii_dec) l.

Definition mem (w : str) (l : list str) : bool := existsb (str_eqb w) l.

(** [a & b] on sets. *)
Definition inter (a b : list str) : list str :=
  filter (fun w => mem w b) a.

(** Dictionaries keep their insertion order: association lists. *)

(** [d.get(key, default)] on a dictionary kept as an association list. *)
Fixpoint dict_get {V} (d : list (str * V)) (key : str) (default : V) : V :=
  match d with
  | [] => default
  | (k, v) :: d' => if str_eqb k key then v else dict_get d' key default
  end.

(** [d[key] = v]: an existing key keeps its place. *)
Fixpoint dict_set {V} (d : list (str * V)) (key : str) (v : V) : list (str * V) :=
  match d with
  | [] => [(key, v)]
  | (k, w) :: d' => if str_eqb k key then (k, v) :: d' else (k, w) :: dict_set d' key v
  end.

(** [d.get(key)], with [None] for a missing key. *)
Fixpoint lookup {V} (d : list (str * V)) (key : str) : option V :=
  match d with
  | [] => None
  | (k, v) :: d' => if str_eqb k key then Some v else lookup d' key
  end.

(** [str(i)] and the [{i}] of an f-string, for an integer. *)
Definition str_of_int (i : Z) : str :=
  tx (DecimalString.NilZero.string_of_int (Z.to_int i)).

(** [enumerate(l, start)]. *)
Fixpoint enumerate {A} (start : Z) (l : list A) : list (Z * A) :=
  match l with
  | [] => []
  | a :: l' => (start, a) :: enumerate (start + 1) l'
  end.

End PyStr.
Import PyStr.

(** ** The fragment of [re] used by the skill parser *)

Module Re.

Inductive cclass :=
| AnyChar      (** [.] under [re.DOTALL] *)
| NotNewline   (** [.] without [re.DOTALL] *)
| Space.       (** [\s] *)

Definition in_class (cl : cclass) (c : ascii) : bool :=
  match cl with
  | AnyChar => true
  | NotNewline => negb (Ascii.eqb c nl)
  | Space => isspace c
  end.

Inductive regex :=
| Lit (l : str)            (** a literal string *)
| Star (cl : cclass)       (** [c*], greedy *)
| StarLazy (cl : cclass)   (** [c*?] *)
| Plus (cl : cclass)       (** [c+], greedy *)
| Cat (r1 r2 : regex).

(** The remainders left after consuming 0, 1, 2, ... characters of the
    class, shortest match first. *)
Fixpoint rests (cl : cclass) (s : str) : list str :=
  s :: match s with
       | [] => []
       | a :: s' => if in_class cl a then rests cl s' else []
       end.

(** All ways to match [r] at the head of [s], as the remainders of the
    input, in the order in which a backtracking matcher tries them. *)
Fixpoint run (r : regex) (s : str) : list str :=
  match r with
  | Lit l => if startswith l s then [skipn (length l) s] else []
  | Star cl => rev (rests cl s)
  | StarLazy cl => rests cl s
  | Plus cl => rev (tl (rests cl s))
  | Cat r1 r2 => flat_map (run r2) (run r1 s)
  end.

(** A pattern with one capturing group: [pre (grp) post]. *)
Record pattern := { pre : regex; grp : regex; post : regex }.

Fixpoint find_map {A B} (f : A -> option B) (l : list A) : option B :=
  match l with
  | [] => None
  | a :: l' => match f a with Some b => Some b | None => find_map f l' end
  end.

(** Match at the current position; the result is [group(1)]. *)
Definition match_here (p : pattern) (s : str) : option str :=
  find_map (fun r1 =>
    find_map (fun r2 =>
      match run (post p) r2 with
      | [] => None
      | _ :: _ => Some (firstn (length r1 - length r2) r1)
      end) (run (grp p) r1)) (run (pre p) s).

(** [re.search]: the leftmost position with a match. *)
Fixpoint search (p : pattern) (s : str) : option str :=
  match match_here p s with
  | Some g => Some g
  | None => match s with
            | [] => None
            | _ :: s' => search p s'
            end
  end.

End Re.
Import Re.

(** ** [class Skill] *)

Module Skill.

Record t := mk {
  name : str;          (** [path.name] *)
  description : str;
  keywords : list str;
  content : str
}.

(** [r'^---\s*\n(.*?)\n---\s*\n'] with [re.DOTALL].  Without [re.MULTILINE]
    the anchor only holds at offset 0, so the search is a match there. *)
Definition frontmatter_re : pattern :=
  {| pre := Cat (Lit (tx "---")) (Cat (Star Space) (Lit [nl]));
     grp := StarLazy AnyChar;
     post := Cat (Lit (nl :: tx "---")) (Cat (Star Space) (Lit [nl])) |}.

(** [r'description:\s*(.+)'] *)
Definition description_re : pattern :=
  {| pre := Cat (Lit (tx "description:")) (Star Space);
     grp := Plus NotNewline;
     post := Lit [] |}.

(** [r'keywords:\s*\[(.+)\]'] *)
Definition keywords_re : pattern :=
  {| pre := Cat (Lit (tx "keywords:")) (Cat (Star Space) (Lit (tx "[")));
     grp := Plus NotNewline;
     post := Lit (tx "]") |}.

Definition tech_keywords : list str := map tx
  [ "react"; "vue"; "angular"; "typescript"; "javascript"; "python";
    "node"; "express"; "django"; "flask"; "fastapi"; "next.js";
    "authentication"; "auth"; "jwt"; "oauth"; "security";
    "database"; "sql"; "mongodb"; "postgres"; "mysql";
    "api"; "rest"; "graphql"; "websocket";
    "ui"; "ux"; "design"; "css"; "tailwind"; "styling";
    "test"; "testing"; "jest"; "pytest"; "unit test";
    "debug"; "error"; "bug"; "fix";
    "deploy"; "devops"; "docker"; "kubernetes";
    "performance"; "optimize"; "cache";
    "mobile"; "ios"; "android"; "react-native";
    "payment"; "stripe"; "shopify";
    "3d"; "threejs"; "webgl"; "canvas";
    "pdf"; "excel"; "word"; "document";
    "planning"; "architecture"; "design pattern" ]%string.

(** [_extract_keywords] *)
Definition _extract_keywords (text : str) : list str :=
  let text_lower := lower text in
  let keywords := filter (fun keyword => py_in keyword text_lower) tech_keywords in
  slice_to 10 keywords.

(** The frontmatter block of a document, [frontmatter_match.group(1)]. *)
Definition frontmatter (content : str) : option str :=
  match_here frontmatter_re content.

(** The description the header block gives, or the initial empty string. *)
Definition parsed_description (content : str) : str :=
  match frontmatter content with
  | Some fm =>
      match search description_re fm with
      | Some g => strip g
      | None => []
      end
  | None => []
  end.

(** The explicit keyword list of the header block, when
    [keywords_match] succeeds. *)
Definition explicit_keywords (content : str) : option (list str) :=
  match frontmatter content with
  | Some fm =>
      match search keywords_re fm with
      | Some g =>
          Some (map (fun k => strip_chars [dquote; "'"%char] (strip k))
                    (split_on ","%char g))
      | None => None
      end
  | None => None
  end.

(** [_parse_skill_file], on the text read from [SKILL.md]. *)
Definition _parse_skill_file (nm : str) (content : str) : t :=
  let description := parsed_description content in
  let keywords :=
    match explicit_keywords content with
    | Some ks => ks
    | None => []
    end in
  let keywords :=
    if is_nil keywords
    then _extract_keywords (description ++ tx " " ++ firstn 500 content)
    else keywords in
  {| name := nm; description := description;
     keywords := keywords; content := content |}.

(** [Skill.__init__]: [file] is the text of [SKILL.md] when it exists. *)
Definition init (nm : str) (file : option str) : t :=
  match file with
  | Some content => _parse_skill_file nm content
  | None => {| name := nm; description := []; keywords := []; content := [] |}
  end.

(** The [affinities] table of [_get_agent_affinity]. *)
Definition affinities : list (str * list str) :=
  map (fun kv => (tx (fst kv), map tx (snd kv)))
  [ ("00", ["code-review"; "sequential-thinking"; "problem-solving"; "debugging"]);
    ("01", ["planning"; "sequential-thinking"; "problem-solving"]);
    ("02", ["backend-development"; "frontend-development"; "web-frameworks";
            "databases"; "better-auth"; "payment-integration"; "debugging"]);
    ("03", ["ui-ux-pro-max"; "frontend-design"; "ui-styling"; "threejs"; "ai-artist"]);
    ("04", ["code-review"; "sequential-thinking"; "problem-solving"]);
    ("05", ["common"]);
    ("06", ["devops"; "chrome-devtools"]);
    ("07", ["debugging"; "problem-solving"; "sequential-thinking"]);
    ("08", ["devops"; "planning"]);
    ("09", ["debugging"; "code-review"]) ]%string.

(** [_get_agent_affinity] *)
Definition _get_agent_affinity (self : t) (agent_id : str) : Q :=
  let relevant_skills := dict_get affinities agent_id [] in
  if mem (name self) relevant_skills then 1 else 0.

(** Python's [len(x)] as a float operand. *)
Definition flen {A} (l : list A) : Q := inject_Z (Z.of_nat (length l)).

(** The four numbered sections of [relevance_score], each taking the running
    [score] and returning the updated one. *)

(** 1. Direct skill name match. *)
Definition score_name (self : t) (query_lower : str) (score : Q) : Q :=
  if py_in (replace "-"%char " "%char (name self)) query_lower
  then score + 0.5 else score.

(** 2. Description keyword match. *)
Definition score_description (self : t) (query_lower : str) (score : Q) : Q :=
  if negb (is_nil (description self)) then
    let desc_words := to_set (split (lower (description self))) in
    let query_words := to_set (split query_lower) in
    let common := inter desc_words query_words in
    if negb (is_nil common)
    then score + 0.3 * (flen common / inject_Z (Z.max (Z.of_nat (length query_words)) 1))
    else score
  else score.

(** 3. Keyword match. *)
Definition score_keywords (self : t) (query_lower : str) (score : Q) : Q :=
  fold_left
    (fun score keyword => if py_in keyword query_lower then score + 0.15 else score)
    (keywords self) score.

(** 4. Agent-skill affinity boost; [None] and the empty string are both
    falsy. *)
Definition score_affinity (self : t) (agent_id : option str) (score : Q) : Q :=
  match agent_id with
  | Some a =>
      if negb (is_nil a) then score + _get_agent_affinity self a * 0.2 else score
  | None => score
  end.

(** [relevance_score] *)
Definition relevance_score (self : t) (query : str) (agent_id : option str) : Q :=
  let query_lower := lower query in
  let score := 0 in
  let score := score_name self query_lower score in
  let score := score_description self query_lower score in
  let score := score_keywords self query_lower score in
  let score := score_affinity self agent_id score in
  Qmin score 1.

End Skill.

(** ** [class SkillLoader] *)

Module SkillLoader.

(** One entry of [skills_dir.iterdir()]. *)
Record dir_entry := {
  entry_name : str;
  is_dir : bool;
  skill_md : option str   (** the text of [SKILL.md], when the file exists *)
}.

(** [self.skills]: a dictionary in insertion order. *)
Record t := mk { skills : list (str * Skill.t) }.

(** [self.skills.values()] *)
Definition values (self : t) : list Skill.t := map snd (skills self).

(** [_load_all_skills]; [skills_dir] is [None] when the directory is missing. *)
Definition _load_all_skills (skills_dir : option (list dir_entry)) : t :=
  match skills_dir with
  | None => mk []
  | Some entries =>
      mk (fold_left
            (fun skills e =>
               if is_dir e && (match skill_md e with Some _ => true | None => false end)
               then let skill := Skill.init (entry_name e) (skill_md e) in
                    dict_set skills (Skill.name skill) skill
               else skills)
            entries [])
  end.

(** [scored_skills.sort(key=lambda x: x[1], reverse=True)]: the sort is
    stable, also under [reverse=True].  A list has one stable arrangement in
    descending score order ([SelectFacts.stable_sorted_unique] below); it is
    computed here by insertion. *)
Fixpoint insert_desc {A} (x : A * Q) (l : list (A * Q)) : list (A * Q) :=
  match l with
  | [] => [x]
  | y :: l' =>
      if Qle_bool (snd y) (snd x) then x :: y :: l'
      else y :: insert_desc x l'
  end.

Fixpoint sort_desc {A} (l : list (A * Q)) : list (A * Q) :=
  match l with
  | [] => []
  | x :: l' => insert_desc x (sort_desc l')
  end.

(** [select_skills] *)
Definition select_skills (self : t) (query : str) (agent_id : option str)
    (max_skills : Z) (min_score : Q) : list (Skill.t * Q) :=
  let scored_skills :=
    flat_map
      (fun skill =>
         let score := Skill.relevance_score skill query agent_id in
         if Qle_bool min_score score then [(skill, score)] else [])
      (values self) in
  let scored_skills := sort_desc scored_skills in
  slice_to max_skills scored_skills.

Definition default_max_skills : Z := 3.
Definition default_min_score : Q := 0.1.

(** [get_skill] *)
Definition get_skill (self : t) (skill_name : str) : option Skill.t :=
  lookup (skills self) skill_name.

(** [load_skill_content] *)
Definition load_skill_content (skill : Skill.t) : str := Skill.content skill.

(** [build_skills_context] *)
Definition build_skills_context (selected_skills : list Skill.t) : str :=
  if is_nil selected_skills then []
  else
    let context := nl :: tx "# === AVAILABLE SKILLS ===" ++ [nl; nl] in
    let context :=
      context ++
      tx "The following specialized skills are loaded for this task:" ++ [nl; nl] in
    fold_left
      (fun context (p : Z * Skill.t) =>
         let context :=
           context ++ tx "## Skill " ++ str_of_int (fst p) ++ tx ": " ++
           Skill.name (snd p) ++ [nl; nl] in
         let context := context ++ Skill.content (snd p) in
         context ++ [nl; nl] ++ tx "---" ++ [nl; nl])
      (enumerate 1 selected_skills) context.

(** [list_all_skills] *)
Definition list_all_skills (self : t) : list (str * str) :=
  map (fun kv => (fst kv, Skill.description (snd kv))) (skills self).

End SkillLoader.

(** ** Python values, exceptions and effects *)

Module Py.

(** The values that [json.load] produces and that the orchestrator stores
    in its dictionaries. *)
#[warnings="-register-all"]
Inductive pyval :=
| None_
| Bool (b : bool)
| Int (z : Z)
| Float (literal : str)
| Str (s : str)
| List_ (l : list pyval)
| Dict (d : list (str * pyval)).

Definition is_dict (v : pyval) : bool :=
  match v with Dict _ => true | _ => false end.

Definition has_key (v : pyval) (key : str) : bool :=
  match v with
  | Dict d => match lookup d key with Some _ => true | None => false end
  | _ => false
  end.

Definition get (v : pyval) (key : str) : option pyval :=
  match v with
  | Dict d => lookup d key
  | _ => None
  end.

Inductive exn :=
| TypeError
| EOFError
| FileNotFoundError
| JSONDecodeError.

Inductive outcome (A : Type) :=
| Returned (a : A)
| Raised (e : exn).
Arguments Returned {A} a.
Arguments Raised {A} e.

(** A computation reads and updates a world [W] and returns or raises. *)
Definition M (W A : Type) : Type := W -> outcome A * W.

Definition ret {W A} (a : A) : M W A := fun w => (Returned a, w).

Definition raise {W A} (e : exn) : M W A := fun w => (Raised e, w).

Definition bind {W A B} (c : M W A) (k : A -> M W B) : M W B :=
  fun w =>
    match c w with
    | (Returned a, w') => k a w'
    | (Raised e, w') => (Raised e, w')
    end.

(** [try: body  except: handler] with a bare [except]. *)
Definition try_except {W A} (body handler : M W A) : M W A :=
  fun w =>
    match body w with
    | (Returned a, w') => (Returned a, w')
    | (Raised _, w') => handler w'
    end.

Definition gets {W A} (f : W -> A) : M W A := fun w => (Returned (f w), w).

Definition modify {W} (f : W -> W) : M W unit := fun w => (Returned tt, f w).

End Py.

Notation "x <- c ;; k" := (Py.bind c (fun x => k))
  (at level 61, c at next level, right associativity).
Notation "c ;;; k" := (Py.bind c (fun _ => k))
  (at level 61, right associativity).

(** ** A [json] codec for ASCII text

    [json.load] and [json.dump] belong to the Python runtime, and the
    orchestrator below takes them as part of its environment.  This module
    gives one codec to run the scenarios with.  A number with a fraction or
    an exponent is kept as the text of its token. *)

Module Json.
Import Py.
Local Open Scope nat_scope.

Definition is_ws (c : ascii) : bool :=
  existsb (Ascii.eqb c) [" "%char; ascii_of_nat 9; ascii_of_nat 10; ascii_of_nat 13].

Definition skip_ws (s : str) : str := dropwhile is_ws s.

Definition is_digit (c : ascii) : bool :=
  let n := nat_of_ascii c in (48 <=? n) && (n <=? 57).

Fixpoint span (P : ascii -> bool) (s : str) : str * str :=
  match s with
  | [] => ([], [])
  | a :: s' => if P a then let (u, r) := span P s' in (a :: u, r) else ([], s)
  end.

Definition digits_value (ds : str) : Z :=
  fold_left (fun acc d => (10 * acc + Z.of_nat (nat_of_ascii d - 48))%Z) ds 0%Z.

Definition hex_value (c : ascii) : option nat :=
  let n := nat_of_ascii c in
  if (48 <=? n) && (n <=? 57) then Some (n - 48)
  else if (65 <=? n) && (n <=? 70) then Some (n - 55)
  else if (97 <=? n) && (n <=? 102) then Some (n - 87)
  else None.

(** A number token: an optional minus sign, then 0 or a digit sequence
    without leading zero, then optionally a fraction (a dot and digits) and
    optionally an exponent (e or E, a sign, digits). *)
Definition parse_number (s : str) : option (pyval * str) :=
  let (sign, s1) :=
    match s with
    | c :: r => if Ascii.eqb c "-"%char then ([c], r) else ([], s)
    | [] => ([], s)
    end in
  let (int_part, s2) :=
    match s1 with
    | c :: r => if Ascii.eqb c "0"%char then ([c], r) else span is_digit s1
    | [] => ([], s1)
    end in
  if is_nil int_part then None else
  let (frac, s3) :=
    match s2 with
    | c :: r =>
        if Ascii.eqb c "."%char
        then let (ds, r') := span is_digit r in
             if is_nil ds then ([], s2) else (c :: ds, r')
        else ([], s2)
    | [] => ([], s2)
    end in
  let (expo, s4) :=
    match s3 with
    | c :: r =>
        if Ascii.eqb c "e"%char || Ascii.eqb c "E"%char
        then let (sg, r1) :=
               match r with
               | g :: r0 =>
                   if Ascii.eqb g "+"%char || Ascii.eqb g "-"%char
                   then ([g], r0) else ([], r)
               | [] => ([], r)
               end in
             let (ds, r') := span is_digit r1 in
             if is_nil ds then ([], s3) else (c :: sg ++ ds, r')
        else ([], s3)
    | [] => ([], s3)
    end in
  if is_nil frac && is_nil expo
  then Some (Int (if is_nil sign then digits_value int_part
                  else (- digits_value int_part)%Z), s4)
  else Some (Float (sign ++ int_part ++ frac ++ expo), s4).

(** The body of a string, after the opening quote.  Escapes outside the
    ASCII range and raw control characters are rejected. *)
Fixpoint parse_string (s : str) : option (str * str) :=
  match s with
  | [] => None
  | c :: r =>
      if Ascii.eqb c dquote then Some ([], r)
      else if Ascii.eqb c backslash then
        match r with
        | [] => None
        | e :: r1 =>
            let simple (x : ascii) :=
              match parse_string r1 with
              | Some (u, r') => Some (x :: u, r')
              | None => None
              end in
            if Ascii.eqb e dquote then simple e
            else if Ascii.eqb e backslash then simple e
            else if Ascii.eqb e "/"%char then simple e
            else if Ascii.eqb e "b"%char then simple (ascii_of_nat 8)
            else if Ascii.eqb e "f"%char then simple (ascii_of_nat 12)
            else if Ascii.eqb e "n"%char then simple (ascii_of_nat 10)
            else if Ascii.eqb e "r"%char then simple (ascii_of_nat 13)
            else if Ascii.eqb e "t"%char then simple (ascii_of_nat 9)
            else if Ascii.eqb e "u"%char then
              match r1 with
              | h1 :: h2 :: h3 :: h4 :: r2 =>
                  match hex_value h1, hex_value h2, hex_value h3, hex_value h4 with
                  | Some a, Some b, Some c', Some d =>
                      let n := ((a * 16 + b) * 16 + c') * 16 + d in
                      if n <? 128 then
                        match parse_string r2 with
                        | Some (u, r') => Some (ascii_of_nat n :: u, r')
                        | None => None
                        end
                      else None
                  | _, _, _, _ => None
                  end
              | _ => None
              end
            else None
        end
      else if nat_of_ascii c <? 32 then None
      else match parse_string r with
           | Some (u, r') => Some (c :: u, r')
           | None => None
           end
  end.

Definition literal (word : str) (v : pyval) (s : str) : option (pyval * str) :=
  if startswith word s then Some (v, skipn (length word) s) else None.

Fixpoint parse_value (fuel : nat) (s : str) {struct fuel} : option (pyval * str) :=
  match fuel with
  | O => None
  | S fuel' =>
      match skip_ws s with
      | [] => None
      | c :: r =>
          if Ascii.eqb c "{"%char then
            match skip_ws r with
            | c' :: r' =>
                if Ascii.eqb c' "}"%char then Some (Dict [], r')
                else parse_members fuel' r []
            | [] => None
            end
          else if Ascii.eqb c "["%char then
            match skip_ws r with
            | c' :: r' =>
                if Ascii.eqb c' "]"%char then Some (List_ [], r')
                else parse_elements fuel' r []
            | [] => None
            end
          else if Ascii.eqb c dquote then
            match parse_string r with
            | Some (u, r') => Some (Str u, r')
            | None => None
            end
          else if Ascii.eqb c "n"%char then literal (tx "null") None_ (c :: r)
          else if Ascii.eqb c "t"%char then literal (tx "true") (Bool true) (c :: r)
          else if Ascii.eqb c "f"%char then literal (tx "false") (Bool false) (c :: r)
          else if Ascii.eqb c "N"%char then literal (tx "NaN") (Float (tx "nan")) (c :: r)
          else if Ascii.eqb c "I"%char
          then literal (tx "Infinity") (Float (tx "inf")) (c :: r)
          else if startswith (tx "-Infinity") (c :: r)
          then literal (tx "-Infinity") (Float (tx "-inf")) (c :: r)
          else parse_number (c :: r)
      end
  end
with parse_elements (fuel : nat) (s : str) (acc : list pyval) {struct fuel}
    : option (pyval * str) :=
  match fuel with
  | O => None
  | S fuel' =>
      match parse_value fuel' s with
      | Some (v, r) =>
          match skip_ws r with
          | c :: r' =>
              if Ascii.eqb c ","%char then parse_elements fuel' r' (v :: acc)
              else if Ascii.eqb c "]"%char then Some (List_ (rev (v :: acc)), r')
              else None
          | [] => None
          end
      | None => None
      end
  end
with parse_members (fuel : nat) (s : str) (acc : list (str * pyval)) {struct fuel}
    : option (pyval * str) :=
  match fuel with
  | O => None
  | S fuel' =>
      match skip_ws s with
      | q :: r0 =>
          if Ascii.eqb q dquote then
            match parse_string r0 with
            | Some (key, r1) =>
                match skip_ws r1 with
                | c :: r2 =>
                    if Ascii.eqb c ":"%char then
                      match parse_value fuel' r2 with
                      | Some (v, r3) =>
                          let acc' := dict_set acc key v in
                          match skip_ws r3 with
                          | c' :: r4 =>
                              if Ascii.eqb c' ","%char then parse_members fuel' r4 acc'
                              else if Ascii.eqb c' "}"%char then Some (Dict acc', r4)
                              else None
                          | [] => None
                          end
                      | None => None
                      end
                    else None
                | [] => None
                end
            | None => None
            end
          else None
      | [] => None
      end
  end.

(** [json.loads]: one value, then nothing but white space. *)
Definition loads (s : str) : option pyval :=
  match parse_value (2 * length s + 2) s with
  | Some (v, r) => if is_nil (skip_ws r) then Some v else None
  | None => None
  end.

Definition hex_digit (n : nat) : ascii :=
  if n <? 10 then ascii_of_nat (48 + n) else ascii_of_nat (87 + n).

Definition escape_char (c : ascii) : str :=
  let n := nat_of_ascii c in
  if Ascii.eqb c dquote then [backslash; dquote]
  else if Ascii.eqb c backslash then [backslash; backslash]
  else if n =? 10 then [backslash; "n"%char]
  else if n =? 13 then [backslash; "r"%char]
  else if n =? 9 then [backslash; "t"%char]
  else if n =? 8 then [backslash; "b"%char]
  else if n =? 12 then [backslash; "f"%char]
  else if (n <? 32) || (126 <? n)
  then backslash :: tx "u00" ++ [hex_digit (n / 16); hex_digit (n mod 16)]
  else [c].

Definition quote (s : str) : str :=
  [dquote] ++ flat_map escape_char s ++ [dquote].

Definition int_text (z : Z) : str :=
  tx (DecimalString.NilZero.string_of_int (Z.to_int z)).

(** [json.dumps(v, indent=2)], at nesting depth [depth]. *)
Fixpoint dump (depth : nat) (v : pyval) : str :=
  let inner := nl :: repeat " "%char (2 * S depth) in
  let outer := nl :: repeat " "%char (2 * depth) in
  match v with
  | None_ => tx "null"
  | Bool true => tx "true"
  | Bool false => tx "false"
  | Int z => int_text z
  | Float literal => literal
  | Str s => quote s
  | List_ [] => tx "[]"
  | List_ l =>
      tx "[" ++ inner ++
      join (tx "," ++ inner) (map (dump (S depth)) l) ++ outer ++ tx "]"
  | Dict [] => tx "{}"
  | Dict d =>
      tx "{" ++ inner ++
      join (tx "," ++ inner)
           (map (fun kv => quote (fst kv) ++ tx ": " ++ dump (S depth) (snd kv)) d) ++
      outer ++ tx "}"
  end.

Definition dumps (v : pyval) : str := dump 0 v.

End Json.

(** ** [class Orchestrator] *)

Module Orchestrator.
Import Py.

(** *** The collaborators that live outside the two modules *)

(** [agents.Agent]: the orchestrator reads [name] and [instructions]. *)
Module Agent.
Record t := { name : str; instructions : str }.
End Agent.

(** [TaskType]: an enumeration; the orchestrator reads [.value] and uses
    [str(task_type)]. *)
Record TaskType := { value : str; task_str : str }.

(** The [params] dictionary: the orchestrator reads the key
    ['description'] and prints the dictionary with [str]. *)
Record Params := { description : option str; params_str : str }.

(** [IntentParser] *)
Record IntentParser := {
  parse : str -> TaskType * Params;
  get_agent_pipeline : TaskType -> bool -> list str;
  should_ask_for_approval : TaskType -> bool
}.

(** The runtime: the [json] codec, the clock and the working directory. *)
Record Env := {
  json_load : str -> option pyval;   (** [None]: [json.load] raises *)
  json_dump : pyval -> str;          (** [json.dump(_, indent=2)] *)
  isoformat : nat -> str;            (** the reading of the clock at a tick *)
  cwd : str                          (** [str(Path.cwd())] *)
}.

(** *** The result dictionaries *)

(** [agent_result] *)
Module StepResult.
Record t := {
  agent_id : str;
  agent_name : str;
  skills_used : list str;
  context_size : Z;
  status : str
}.
End StepResult.

(** [results] *)
Module RunResult.
Record t := {
  task_type : str;
  query : str;
  agents_executed : list StepResult.t;
  success : bool;
  errors : list str
}.
End RunResult.

(** *** The orchestrator object and the world it acts on *)

Record t := {
  orchestrator_instructions : str;
  agents : list (str * Agent.t);
  skill_loader : SkillLoader.t;
  intent_parser : IntentParser;
  is_existing_project : bool
}.

Record World := {
  state : pyval;                (** [self.state] *)
  state_file : option str;      (** [.vibecode/state.json], when it exists *)
  session_file : option str;    (** [.vibecode/session_context.md] *)
  stdin : list str;             (** the lines [input] will read *)
  ticks : nat                   (** clock readings made so far *)
}.

Definition set_state (v : pyval) (w : World) : World :=
  {| state := v; state_file := state_file w; session_file := session_file w;
     stdin := stdin w; ticks := ticks w |}.

Definition set_state_file (f : option str) (w : World) : World :=
  {| state := state w; state_file := f; session_file := session_file w;
     stdin := stdin w; ticks := ticks w |}.

Definition set_session_file (f : option str) (w : World) : World :=
  {| state := state w; state_file := state_file w; session_file := f;
     stdin := stdin w; ticks := ticks w |}.

Definition set_stdin (l : list str) (w : World) : World :=
  {| state := state w; state_file := state_file w; session_file := session_file w;
     stdin := l; ticks := ticks w |}.

Definition tick (w : World) : World :=
  {| state := state w; state_file := state_file w; session_file := session_file w;
     stdin := stdin w; ticks := S (ticks w) |}.

Definition Run := M World.

Section WithRuntime.
Variable env : Env.

(** [datetime.now().isoformat()] *)
Definition now_isoformat : Run str :=
  fun w => (Returned (isoformat env (ticks w)), tick w).

(** [input(prompt)] *)
Definition input : Run str :=
  fun w =>
    match stdin w with
    | [] => (Raised EOFError, w)
    | line :: rest => (Returned line, set_stdin rest w)
    end.

(** [self.state[key] = v] *)
Definition state_setitem (key : str) (v : pyval) : Run unit :=
  fun w =>
    match state w with
    | Dict d => (Returned tt, set_state (Dict (dict_set d key v)) w)
    | _ => (Raised TypeError, w)
    end.

(** [with open(self.state_file, 'r') as f: return json.load(f)] *)
Definition read_state_file : Run pyval :=
  fun w =>
    match state_file w with
    | None => (Raised FileNotFoundError, w)
    | Some text =>
        match json_load env text with
        | Some v => (Returned v, w)
        | None => (Raised JSONDecodeError, w)
        end
    end.

Definition default_state (timestamp : str) : pyval :=
  Dict [ (tx "current_phase", Str (tx "IDLE"));
         (tx "active_task", None_);
         (tx "active_agents", List_ []);
         (tx "history", List_ []);
         (tx "timestamp", Str timestamp) ].

(** [load_state] *)
Definition load_state : Run pyval :=
  exists_ <- gets (fun w => match state_file w with Some _ => true | None => false end) ;;
  loaded <- (if (exists_ : bool)
             then try_except (v <- read_state_file ;; ret (Some v)) (ret None)
             else ret None) ;;
  match loaded with
  | Some v => ret v
  | None => timestamp <- now_isoformat ;; ret (default_state timestamp)
  end.

(** [save_state] *)
Definition save_state : Run unit :=
  timestamp <- now_isoformat ;;
  state_setitem (tx "timestamp") (Str timestamp) ;;;
  modify (fun w => set_state_file (Some (json_dump env (state w))) w).

(** [self.state = self.load_state()], from [__init__]. *)
Definition init_state : Run unit :=
  loaded <- load_state ;; modify (set_state loaded).

(** *** The result dictionaries as dictionaries *)

Definition step_to_dict (r : StepResult.t) : pyval :=
  Dict [ (tx "agent_id", Str (StepResult.agent_id r));
         (tx "agent_name", Str (StepResult.agent_name r));
         (tx "skills_used", List_ (map Str (StepResult.skills_used r)));
         (tx "context_size", Int (StepResult.context_size r));
         (tx "status", Str (StepResult.status r)) ].

Definition to_dict (r : RunResult.t) : pyval :=
  Dict [ (tx "task_type", Str (RunResult.task_type r));
         (tx "query", Str (RunResult.query r));
         (tx "agents_executed", List_ (map step_to_dict (RunResult.agents_executed r)));
         (tx "success", Bool (RunResult.success r));
         (tx "errors", List_ (map Str (RunResult.errors r))) ].

(** The dictionary [process_user_request] returns when approval is denied. *)
Definition cancelled : pyval :=
  Dict [ (tx "success", Bool false);
         (tx "message", Str (tx "Task cancelled by user")) ].

Variable self : t.

Definition rule (c : ascii) (n : nat) : str := [nl] ++ repeat c n ++ [nl].

(** [_build_agent_context] *)
Definition _build_agent_context (agent : Agent.t) (query : str) (params : Params)
    (selected_skills : list Skill.t) (previous_results : list StepResult.t) : str :=
  let context_parts :=
    [ tx "# SYSTEM ORCHESTRATION";
      orchestrator_instructions self;
      rule "="%char 60 ] ++
    [ tx "# AGENT: " ++ Agent.name agent;
      Agent.instructions agent;
      rule "="%char 60 ] ++
    (if negb (is_nil selected_skills)
     then tx "# SELECTED SKILLS" ::
          flat_map (fun skill =>
                      [ nl :: tx "## Skill: " ++ Skill.name skill;
                        Skill.content skill;
                        rule "-"%char 40 ]) selected_skills
     else []) ++
    [ tx "# CURRENT TASK";
      tx "Query: " ++ query;
      tx "Parameters: " ++ params_str params;
      rule "="%char 60 ] ++
    (if negb (is_nil previous_results)
     then tx "# PREVIOUS AGENT RESULTS" ::
          flat_map (fun result =>
                      (tx "- " ++ StepResult.agent_name result ++ tx ": " ++
                         StepResult.status result) ::
                      (if negb (is_nil (StepResult.skills_used result))
                       then [ tx "  Skills: " ++
                              join (tx ", ") (StepResult.skills_used result) ]
                       else [])) previous_results ++
          [ rule "="%char 60 ]
     else []) in
  join [nl] context_parts.

(** [_log_agent_execution] *)
Definition _log_agent_execution (agent_id query : str)
    (skills : list (Skill.t * Q)) : Run unit :=
  let log_entry :=
    (nl :: tx "## Agent " ++ agent_id ++ tx " Execution" ++ [nl]) ++
    (tx "- Query: " ++ query ++ [nl]) ++
    (if negb (is_nil skills)
     then tx "- Skills: " ++
          join (tx ", ") (map (fun p => Skill.name (fst p)) skills) ++ [nl]
     else tx "- Skills: None" ++ [nl]) ++
    (tx "- Timestamp: " ++ cwd env ++ [nl]) in
  modify (fun w =>
    match session_file w with
    | Some text => set_session_file (Some (text ++ log_entry)) w
    | None =>
        set_session_file
          (Some ((tx "# Vibecode Studio Session Log" ++ [nl]) ++ log_entry)) w
    end).

Definition not_found_message (agent_id : str) : str :=
  tx "Agent " ++ agent_id ++ tx " not found".

(** [results["errors"].append(error_msg); results["success"] = False] *)
Definition record_error (error_msg : str) (results : RunResult.t) : RunResult.t :=
  {| RunResult.task_type := RunResult.task_type results;
     RunResult.query := RunResult.query results;
     RunResult.agents_executed := RunResult.agents_executed results;
     RunResult.success := false;
     RunResult.errors := RunResult.errors results ++ [error_msg] |}.

(** [results["agents_executed"].append(agent_result)] *)
Definition record_step (agent_result : StepResult.t) (results : RunResult.t)
    : RunResult.t :=
  {| RunResult.task_type := RunResult.task_type results;
     RunResult.query := RunResult.query results;
     RunResult.agents_executed := RunResult.agents_executed results ++ [agent_result];
     RunResult.success := RunResult.success results;
     RunResult.errors := RunResult.errors results |}.

(** The loop [for i, agent_id in enumerate(agent_ids, 1)]. *)
Fixpoint pipeline_loop (query : str) (params : Params) (agent_ids : list str)
    (results : RunResult.t) : Run RunResult.t :=
  match agent_ids with
  | [] => ret results
  | agent_id :: rest =>
      match lookup (agents self) agent_id with
      | None =>
          let error_msg := not_found_message agent_id in
          pipeline_loop query params rest (record_error error_msg results)
      | Some agent =>
          let selected_skills :=
            SkillLoader.select_skills (skill_loader self) query (Some agent_id)
              3 SkillLoader.default_min_score in
          let context :=
            _build_agent_context agent query params
              (map fst selected_skills) (RunResult.agents_executed results) in
          _log_agent_execution agent_id query selected_skills ;;;
          let agent_result :=
            {| StepResult.agent_id := agent_id;
               StepResult.agent_name := Agent.name agent;
               StepResult.skills_used :=
                 map (fun p => Skill.name (fst p)) selected_skills;
               StepResult.context_size := Z.of_nat (length context);
               StepResult.status := tx "simulated" |} in
          pipeline_loop query params rest (record_step agent_result results)
      end
  end.

(** [execute_pipeline] *)
Definition execute_pipeline (task_type : TaskType) (agent_ids : list str)
    (params : Params) : Run RunResult.t :=
  state_setitem (tx "current_phase") (Str (tx "PIPELINE:" ++ value task_type)) ;;;
  state_setitem (tx "active_task")
    (Str (match description params with
          | Some d => d
          | None => task_str task_type
          end)) ;;;
  save_state ;;;
  let query := match description params with Some d => d | None => [] end in
  let results :=
    {| RunResult.task_type := value task_type;
       RunResult.query := query;
       RunResult.agents_executed := [];
       RunResult.success := true;
       RunResult.errors := [] |} in
  results <- pipeline_loop query params agent_ids results ;;
  state_setitem (tx "last_pipeline")
    (Dict [ (tx "task_type", Str (value task_type));
            (tx "agents", List_ (map Str agent_ids));
            (tx "timestamp", Str (cwd env)) ]) ;;;
  save_state ;;;
  ret results.

(** [process_user_request], with the method it ends on, [execute_pipeline],
    as a parameter. *)
Definition process_user_request_with
    (run : TaskType -> list str -> Params -> Run RunResult.t)
    (user_input : str) : Run pyval :=
  let '(task_type, params) := parse (intent_parser self) user_input in
  let pipeline :=
    get_agent_pipeline (intent_parser self) task_type (is_existing_project self) in
  proceed <-
    (if should_ask_for_approval (intent_parser self) task_type
     then approval <- input ;;
          ret (str_eqb (lower (strip approval)) (tx "y"))
     else ret true) ;;
  if (proceed : bool)
  then results <- run task_type pipeline params ;; ret (to_dict results)
  else ret cancelled.

(** [process_user_request] *)
Definition process_user_request (user_input : str) : Run pyval :=
  process_user_request_with execute_pipeline user_input.

End WithRuntime.

(** [register_agent]: [self.agents[agent.id] = agent].  The agent's [id] is
    given beside the record of the attributes the orchestrator reads. *)
Definition register_agent (self : t) (agent_id : str) (agent : Agent.t) : t :=
  {| orchestrator_instructions := orchestrator_instructions self;
     agents := dict_set (agents self) agent_id agent;
     skill_loader := skill_loader self;
     intent_parser := intent_parser self;
     is_existing_project := is_existing_project self |}.

(** [get_status], as a function of [self.state].  The result is [None] when
    the state is not a dictionary: it then has no [get] method and the call
    raises. *)
Definition get_status (self : t) (state : pyval) : option pyval :=
  match state with
  | Dict d =>
      Some (Dict
        [ (tx "phase",
           match lookup d (tx "current_phase") with
           | Some v => v
           | None => Str (tx "IDLE")
           end);
          (tx "task",
           match lookup d (tx "active_task") with
           | Some v => v
           | None => None_
           end);
          (tx "agents_registered", Int (Z.of_nat (length (agents self))));
          (tx "skills_available",
           Int (Z.of_nat (length (SkillLoader.skills (skill_loader self)))));
          (tx "last_update",
           match lookup d (tx "timestamp") with
           | Some v => v
           | None => None_
           end) ])
  | _ => None
  end.

(** [log_action].  The file is opened for appending, which creates it when
    it is missing.  [strftime] is the clock reading in the format
    [%Y-%m-%d %H:%M:%S]; [result] is the printed form of the result. *)
Definition log_action (strftime : nat -> str) (agent_id action result : str)
    : Run unit :=
  fun w =>
    let timestamp := strftime (ticks w) in
    let entry :=
      (nl :: tx "## [" ++ timestamp ++ tx "] Agent " ++ agent_id ++ [nl]) ++
      (tx "**Action:** " ++ action ++ [nl]) ++
      (tx "**Result:** " ++ result ++ [nl]) ++
      (tx "---" ++ [nl]) in
    (Returned tt,
     tick (set_session_file
             (Some (match session_file w with
                    | Some text => text ++ entry
                    | None => entry
                    end)) w)).

End Orchestrator.

(** * The vocabulary of the statements *)

Module Spec.
Import Skill.

(** A string is lowercase when [lower] leaves it alone. *)
Definition is_lowercase (k : str) : Prop := lower k = k.

(** [t] is found at the head of [s], letter case aside. *)
Fixpoint ci_startswith (t s : str) : bool :=
  match t, s with
  | [], _ => true
  | _ :: _, [] => false
  | a :: t', b :: s' =>
      Ascii.eqb (lower_char a) (lower_char b) && ci_startswith t' s'
  end.

(** [t] occurs in [s] as a substring, letter case aside. *)
Fixpoint ci_in (t s : str) : bool :=
  ci_startswith t s ||
  match s with
  | [] => false
  | _ :: s' => ci_in t s'
  end.

(** The keyword derivation in the words of the specification: the
    vocabulary terms that occur, case-insensitively, in the description
    followed by the first 500 characters of the document, in vocabulary
    order, the first ten of them. *)
Definition derived_keywords_spec (description content : str) : list str :=
  firstn 10
    (filter (fun term => ci_in term (description ++ firstn 500 content))
            tech_keywords).

(** Descending order of the scores. *)
Definition by_score_desc {A} (x y : A * Q) : Prop := snd y <= snd x.

(** The entries of one score value. *)
Definition has_score {A} (v : Q) (x : A * Q) : bool := Qeq_bool (snd x) v.

(** An agent id resolves when [self.agents.get(agent_id)] finds an agent. *)
Definition registered (self : Orchestrator.t) (agent_id : str) : bool :=
  match lookup (Orchestrator.agents self) agent_id with
  | Some _ => true
  | None => false
  end.

Definition unregistered (self : Orchestrator.t) (agent_id : str) : bool :=
  negb (registered self agent_id).

(** What a run over [agent_ids] must have recorded in its result: one error
    per agent id that does not resolve, one step result per agent id that
    does, both in the order of the list, and a success flag that tells
    whether there was an error. *)
Definition records_partial_failure (self : Orchestrator.t) (agent_ids : list str)
    (results : Orchestrator.RunResult.t) : Prop :=
  Orchestrator.RunResult.errors results =
    map Orchestrator.not_found_message (filter (unregistered self) agent_ids) /\
  map Orchestrator.StepResult.agent_id
      (Orchestrator.RunResult.agents_executed results) =
    filter (registered self) agent_ids /\
  (Orchestrator.RunResult.success results = true <->
   Orchestrator.RunResult.errors results = []) /\
  (forall a b,
      agent_ids = [a; b] ->
      registered self a = true ->
      registered self b = false ->
      length (Orchestrator.RunResult.agents_executed results) = 1%nat /\
      Orchestrator.RunResult.errors results = [tx "Agent " ++ b ++ tx " not found"] /\
      Orchestrator.RunResult.success results = false).

End Spec.

(** * Auxiliary notions of the proofs *)

Module Analysis.
Import Skill Spec.

(** The running score before the final clamp. *)
Definition raw_score (self : t) (query : str) (agent_id : option str) : Q :=
  score_affinity self agent_id
    (score_keywords self (lower query)
       (score_description self (lower query)
          (score_name self (lower query) 0))).

(** The candidates [select_skills] collects before sorting. *)
Definition scored (self : SkillLoader.t) (query : str) (agent_id : option str)
    (min_score : Q) : list (Skill.t * Q) :=
  flat_map
    (fun skill =>
       let score := Skill.relevance_score skill query agent_id in
       if Qle_bool min_score score then [(skill, score)] else [])
    (SkillLoader.values self).

(** Every skill the loader registers was produced by [_parse_skill_file]
    from the text it stores as its content. *)
Definition parsed (skill : Skill.t) : Prop :=
  skill = _parse_skill_file (name skill) (content skill).

(** The seam between the description and the document in the text that
    [_parse_skill_file] scans. *)

Definition dash : ascii := "-"%char.
Definition space : ascii := " "%char.

(** A remaining piece of a term that can start neither a space followed by
    a dash nor two dashes. *)
Definition seam_free (u : str) : bool :=
  match u with
  | [] => true
  | c :: u' =>
      (negb (Ascii.eqb c space) && negb (Ascii.eqb c dash)) ||
      match u' with
      | [] => false
      | d :: _ => negb (Ascii.eqb d dash)
      end
  end.

Fixpoint all_tails (P : str -> bool) (t : str) : bool :=
  P t && match t with
         | [] => true
         | _ :: t' => all_tails P t'
         end.

Definition head_not_space (t : str) : bool :=
  match t with
  | [] => false
  | c :: _ => negb (Ascii.eqb c space)
  end.

Definition seam_safe (t : str) : bool :=
  all_tails seam_free t && head_not_space t.

End Analysis.

(** * Concrete catalogs, documents and runs *)

Module Scenario.
Import Py Orchestrator.

Definition lines (l : list string) : str :=
  flat_map (fun x => tx x ++ [nl]) l.

Definition cr : ascii := ascii_of_nat 13.

(** A word between double quotes. *)
Definition qt (x : string) : string :=
  String dquote (x ++ String dquote EmptyString)%string.

(** What the parser extracts from a document: the header block, the
    description and the explicit keywords. *)
Definition parse_view (content : str) : option str * str * list str :=
  (Skill.frontmatter content,
   Skill.description (Skill._parse_skill_file [] content),
   match Skill.explicit_keywords content with
   | Some ks => ks
   | None => []
   end).

(** A skill with a description and no explicit keyword list. *)
Definition payment_doc : str :=
  lines [ "---"; "description: stripe checkout"; "---";
          "# Payment integration"; "Use the hosted checkout page." ]%string.

Definition debugging_doc : str :=
  lines [ "---"; "description: find and fix a bug"; "---"; "# Debugging" ]%string.

(** A skill with eleven explicit keywords, written with capitals. *)
Definition frameworks_doc : str :=
  lines [ "---"; "description: Web frameworks";
          "keywords: [React, Vue, Angular, Svelte, Solid, Preact, Lit, Ember, Alpine, Qwik, Astro]";
          "---"; "# Frameworks" ]%string.

(** A skill whose explicit keyword list ends with a comma. *)
Definition api_doc : str :=
  lines [ "---"; "description: API design"; "keywords: [api, rest,]"; "---";
          "# API design" ]%string.

Definition skill_entry (nm : string) (doc : str) : SkillLoader.dir_entry :=
  {| SkillLoader.entry_name := tx nm;
     SkillLoader.is_dir := true;
     SkillLoader.skill_md := Some doc |}.

Definition skills_dir : list SkillLoader.dir_entry :=
  [ skill_entry "payment-integration" payment_doc;
    {| SkillLoader.entry_name := tx "README.md";
       SkillLoader.is_dir := false;
       SkillLoader.skill_md := None |};
    skill_entry "debugging" debugging_doc;
    {| SkillLoader.entry_name := tx "drafts";
       SkillLoader.is_dir := true;
       SkillLoader.skill_md := None |};
    skill_entry "web-frameworks" frameworks_doc;
    skill_entry "api-design" api_doc ].

Definition loader : SkillLoader.t :=
  SkillLoader._load_all_skills (Some skills_dir).

Definition payment_skill : Skill.t :=
  Skill._parse_skill_file (tx "payment-integration") payment_doc.

Definition frameworks_skill : Skill.t :=
  Skill._parse_skill_file (tx "web-frameworks") frameworks_doc.

Definition api_skill : Skill.t :=
  Skill._parse_skill_file (tx "api-design") api_doc.

Definition payment_query : str := tx "create a payment integration with Stripe".

(** A runtime, an orchestrator with two agents, and two worlds. *)
Definition runtime : Env :=
  {| json_load := Json.loads;
     json_dump := Json.dumps;
     isoformat := fun n => tx "2026-01-01T00:00:00." ++ Json.int_text (Z.of_nat n);
     cwd := tx "/work" |}.

Definition build_feature : TaskType :=
  {| value := tx "build_feature"; task_str := tx "TaskType.BUILD_FEATURE" |}.

Definition parser : IntentParser :=
  {| parse := fun user_input =>
       (build_feature,
        {| description := Some user_input;
           params_str := tx "{'description': '" ++ user_input ++ tx "'}" |});
     get_agent_pipeline := fun _ _ => [tx "02"; tx "99"];
     should_ask_for_approval := fun t => str_eqb (value t) (tx "build_feature") |}.

Definition studio : Orchestrator.t :=
  {| orchestrator_instructions := tx "# Golden pipeline";
     agents :=
       [ (tx "01", {| Agent.name := tx "Planner";
                      Agent.instructions := tx "Plan the work." |});
         (tx "02", {| Agent.name := tx "Builder";
                      Agent.instructions := tx "Write the code." |}) ];
     skill_loader := loader;
     intent_parser := parser;
     is_existing_project := false |}.

Definition payment_params : Params :=
  snd (parse parser payment_query).

Definition fresh_world : World :=
  {| state := default_state (tx "2026-01-01T00:00:00");
     state_file := None;
     session_file := None;
     stdin := [tx " N "];
     ticks := 0 |}.

Definition corrupt_world : World :=
  {| state := None_;
     state_file := Some (tx "{not json");
     session_file := None;
     stdin := [];
     ticks := 0 |}.

End Scenario.

(** * Notions for the further properties *)

Module Coverage.
Import Py Orchestrator.

(** The skill with its keyword list emptied. *)
Definition without_keywords (skill : Skill.t) : Skill.t :=
  {| Skill.name := Skill.name skill;
     Skill.description := Skill.description skill;
     Skill.keywords := [];
     Skill.content := Skill.content skill |}.

(** How many of the keywords, repeated entries included, occur in a text. *)
Definition keyword_hits (skill : Skill.t) (query_lower : str) : nat :=
  length (filter (fun k => py_in k query_lower) (Skill.keywords skill)).

(** A directory entry that [_load_all_skills] registers. *)
Definition is_skill_dir (e : SkillLoader.dir_entry) : bool :=
  SkillLoader.is_dir e &&
  match SkillLoader.skill_md e with Some _ => true | None => false end.

(** The registration step of [_load_all_skills]. *)
Definition register (skills : list (str * Skill.t)) (e : SkillLoader.dir_entry)
    : list (str * Skill.t) :=
  if SkillLoader.is_dir e &&
     (match SkillLoader.skill_md e with Some _ => true | None => false end)
  then let skill := Skill.init (SkillLoader.entry_name e) (SkillLoader.skill_md e) in
       dict_set skills (Skill.name skill) skill
  else skills.

(** The last entry of a listing that is registered under a given name. *)
Definition last_skill_entry (entries : list SkillLoader.dir_entry) (nm : str)
    : option SkillLoader.dir_entry :=
  find (fun e => is_skill_dir e && str_eqb (SkillLoader.entry_name e) nm)
       (rev entries).

(** The block that [build_skills_context] writes for the skill numbered
    [i]: a heading with number and name, the content, a rule. *)
Definition skill_block (i : Z) (skill : Skill.t) : str :=
  tx "## Skill " ++ str_of_int i ++ tx ": " ++ Skill.name skill ++ [nl; nl] ++
  Skill.content skill ++ [nl; nl] ++ tx "---" ++ [nl; nl].

(** The two lines that open a skills context. *)
Definition skills_banner : str :=
  (nl :: tx "# === AVAILABLE SKILLS ===" ++ [nl; nl]) ++
  tx "The following specialized skills are loaded for this task:" ++ [nl; nl].

(** The number of catalog skills that reach a minimum score. *)
Definition candidates (self : SkillLoader.t) (query : str)
    (agent_id : option str) (min_score : Q) : nat :=
  length (filter (fun skill =>
                    Qle_bool min_score (Skill.relevance_score skill query agent_id))
                 (SkillLoader.values self)).

(** ** A run of the pipeline, piece by piece *)

(** [params.get('description', str(task_type))] and
    [params.get('description', '')]. *)
Definition task_of (task_type : TaskType) (params : Params) : str :=
  match description params with
  | Some d => d
  | None => task_str task_type
  end.

Definition query_of (params : Params) : str :=
  match description params with
  | Some d => d
  | None => []
  end.

(** The entry that [_log_agent_execution] writes, and the header it puts
    before the first entry of a new file. *)
Definition log_entry (env : Env) (agent_id query : str)
    (skills : list (Skill.t * Q)) : str :=
  (nl :: tx "## Agent " ++ agent_id ++ tx " Execution" ++ [nl]) ++
  (tx "- Query: " ++ query ++ [nl]) ++
  (if negb (is_nil skills)
   then tx "- Skills: " ++
        join (tx ", ") (map (fun p => Skill.name (fst p)) skills) ++ [nl]
   else tx "- Skills: None" ++ [nl]) ++
  (tx "- Timestamp: " ++ cwd env ++ [nl]).

Definition session_header : str := tx "# Vibecode Studio Session Log" ++ [nl].

(** The session file after one more entry. *)
Definition logged (file : option str) (entry : str) : option str :=
  Some (match file with
        | Some text => text ++ entry
        | None => session_header ++ entry
        end).

(** The skills selected for an agent during a run. *)
Definition selection (self : Orchestrator.t) (query agent_id : str)
    : list (Skill.t * Q) :=
  SkillLoader.select_skills (skill_loader self) query (Some agent_id)
    3 SkillLoader.default_min_score.

(** The session file after a run over [agent_ids]. *)
Definition session_after (env : Env) (self : Orchestrator.t) (query : str)
    (agent_ids : list str) (file : option str) : option str :=
  fold_left
    (fun file agent_id =>
       if Spec.registered self agent_id
       then logged file (log_entry env agent_id query (selection self query agent_id))
       else file)
    agent_ids file.

(** What a step result records about the agent it stands for. *)
Definition well_formed_step (self : Orchestrator.t) (query : str)
    (r : StepResult.t) : Prop :=
  (exists agent,
      lookup (agents self) (StepResult.agent_id r) = Some agent /\
      StepResult.agent_name r = Agent.name agent /\
      (Z.of_nat (length (Agent.instructions agent)) <= StepResult.context_size r)%Z) /\
  StepResult.status r = tx "simulated" /\
  StepResult.skills_used r =
    map (fun p => Skill.name (fst p)) (selection self query (StepResult.agent_id r)) /\
  (length (StepResult.skills_used r) <= 3)%nat.

(** The state dictionary with a new time stamp, and the world after
    [save_state]. *)
Definition stamped (env : Env) (tick_no : nat) (d : list (str * pyval))
    : list (str * pyval) :=
  dict_set d (tx "timestamp") (Str (isoformat env tick_no)).

Definition saved (env : Env) (w : World) (d : list (str * pyval)) : World :=
  {| state := Dict (stamped env (ticks w) d);
     state_file := Some (json_dump env (Dict (stamped env (ticks w) d)));
     session_file := session_file w;
     stdin := stdin w;
     ticks := S (ticks w) |}.

(** The entry [last_pipeline] of the state after a run. *)
Definition last_pipeline (env : Env) (task_type : TaskType) (agent_ids : list str)
    : pyval :=
  Dict [ (tx "task_type", Str (value task_type));
         (tx "agents", List_ (map Str agent_ids));
         (tx "timestamp", Str (cwd env)) ].

(** The state dictionary after a run that started with the dictionary [d]
    at clock tick [tick_no]. *)
Definition final_state (env : Env) (task_type : TaskType) (agent_ids : list str)
    (params : Params) (tick_no : nat) (d : list (str * pyval))
    : list (str * pyval) :=
  let d := dict_set d (tx "current_phase") (Str (tx "PIPELINE:" ++ value task_type)) in
  let d := dict_set d (tx "active_task") (Str (task_of task_type params)) in
  let d := stamped env tick_no d in
  let d := dict_set d (tx "last_pipeline") (last_pipeline env task_type agent_ids) in
  stamped env (S tick_no) d.

(** The world after a run. *)
Definition final_world (env : Env) (self : Orchestrator.t) (task_type : TaskType)
    (agent_ids : list str) (params : Params) (w : World)
    (d : list (str * pyval)) : World :=
  {| state := Dict (final_state env task_type agent_ids params (ticks w) d);
     state_file :=
       Some (json_dump env
               (Dict (final_state env task_type agent_ids params (ticks w) d)));
     session_file :=
       session_after env self (query_of params) agent_ids (session_file w);
     stdin := stdin w;
     ticks := S (S (ticks w)) |}.

(** The approval gate lets a request through: no approval is needed, or
    the line read from the console is "y" once stripped and lowercased.
    [w0] is the world in which the pipeline then starts. *)
Definition gate_passed (self : Orchestrator.t) (user_input : str)
    (w w0 : World) : Prop :=
  (should_ask_for_approval (intent_parser self)
     (fst (parse (intent_parser self) user_input)) = false /\ w0 = w) \/
  (should_ask_for_approval (intent_parser self)
     (fst (parse (intent_parser self) user_input)) = true /\
   exists answer rest,
     stdin w = answer :: rest /\
     lower (strip answer) = tx "y" /\
     w0 = set_stdin rest w).

(** ** More scenario data *)

(** A console that answers yes, in capitals and with blanks around. *)
Definition approving_world : World :=
  {| state := default_state (tx "2026-01-01T00:00:00");
     state_file := None;
     session_file := None;
     stdin := [tx " Y "];
     ticks := 0 |}.

(** A state file that holds a JSON array. *)
Definition array_world : World :=
  {| state := None_;
     state_file := Some (tx "[]");
     session_file := None;
     stdin := [];
     ticks := 0 |}.

(** The world after [save_state] in the fresh world. *)
Definition saved_world : World :=
  snd (save_state Scenario.runtime Scenario.fresh_world).

(** A skill written with capitals, in name and keywords. *)
Definition shouting_skill : Skill.t :=
  {| Skill.name := tx "Payment-Integration";
     Skill.description := tx "stripe checkout";
     Skill.keywords := [tx "Stripe"; tx "PayPal"];
     Skill.content := [] |}.

End Coverage.

(** * List facts *)

Lemma In_firstn {A} (x : A) n (l : list A) : In x (firstn n l) -> In x l.
Proof.
  revert l. induction n as [|n IH]; intros [|a l]; simpl; try tauto.
  intros [H|H]; auto.
Qed.

(** * Properties of the skill scorer *)

Module ScoreFacts.
Import Skill Spec Analysis.

Lemma flen_nonneg {A} (l : list A) : 0 <= flen l.
Proof.
  unfold flen. change 0 with (inject_Z 0). rewrite <- Zle_Qle. lia.
Qed.

Lemma overlap_ratio_nonneg {A B} (common : list A) (query_words : list B) :
  0 <= flen common / inject_Z (Z.max (Z.of_nat (length query_words)) 1).
Proof.
  apply Qle_shift_div_l.
  - change 0 with (inject_Z 0). rewrite <- Zlt_Qlt. lia.
  - rewrite Qmult_0_l. apply flen_nonneg.
Qed.

Lemma score_name_ge self q score : score <= score_name self q score.
Proof. unfold score_name. destruct (py_in _ _); lra. Qed.

Lemma score_description_ge self q score : score <= score_description self q score.
Proof.
  unfold score_description.
  destruct (negb (is_nil (description self))); [|lra].
  cbv zeta. destruct (negb (is_nil _)); [|lra].
  pose proof (overlap_ratio_nonneg
    (inter (to_set (split (lower (description self)))) (to_set (split q)))
    (to_set (split q))) as H.
  nra.
Qed.

Lemma score_keywords_ge self q score : score <= score_keywords self q score.
Proof.
  unfold score_keywords. generalize (keywords self) as ks.
  intros ks. revert score.
  induction ks as [|k ks IH]; intros score; simpl; [lra|].
  eapply Qle_trans; [|apply IH]. destruct (py_in k q); lra.
Qed.

Lemma affinity_range self a :
  _get_agent_affinity self a = 0 \/ _get_agent_affinity self a = 1.
Proof. unfold _get_agent_affinity. destruct (mem _ _); auto. Qed.

Lemma score_affinity_ge self agent_id score :
  score <= score_affinity self agent_id score.
Proof.
  unfold score_affinity. destruct agent_id as [a|]; [|lra].
  destruct (negb (is_nil a)); [|lra].
  destruct (affinity_range self a) as [-> | ->]; lra.
Qed.

Lemma relevance_score_raw self query agent_id :
  relevance_score self query agent_id = Qmin (raw_score self query agent_id) 1.
Proof. reflexivity. Qed.

Lemma raw_score_from_name self query agent_id :
  score_name self (lower query) 0 <= raw_score self query agent_id.
Proof.
  unfold raw_score.
  eapply Qle_trans; [|apply score_affinity_ge].
  eapply Qle_trans; [|apply score_keywords_ge].
  apply score_description_ge.
Qed.

(** C2: the relevance score of any skill, for any query and any optional
    agent id, lies between 0.0 and 1.0 inclusive. *)
Theorem relevance_score_bounds :
  forall (self : Skill.t) (query : str) (agent_id : option str),
    0 <= relevance_score self query agent_id /\
    relevance_score self query agent_id <= 1.
Proof.
  intros self query agent_id. rewrite relevance_score_raw. split.
  - apply Q.min_glb; [|lra].
    eapply Qle_trans; [|apply raw_score_from_name].
    apply (score_name_ge self (lower query) 0).
  - apply Q.le_min_r.
Qed.

(** C3: when the skill's name, with every '-' replaced by a space, occurs
    in the lowercased query, the relevance score is at least 0.5, whatever
    the description, the keywords and the agent id are. *)
Theorem name_match_scores_half :
  forall (self : Skill.t) (query : str) (agent_id : option str),
    py_in (replace "-"%char " "%char (name self)) (lower query) = true ->
    0.5 <= relevance_score self query agent_id.
Proof.
  intros self query agent_id Hname. rewrite relevance_score_raw.
  apply Q.min_glb; [|lra].
  eapply Qle_trans; [|apply raw_score_from_name].
  unfold score_name. rewrite Hname. lra.
Qed.

(** C10: supplying an agent id never lowers the score obtained without one. *)
Theorem agent_id_never_lowers_score :
  forall (self : Skill.t) (query agent_id : str),
    relevance_score self query None <= relevance_score self query (Some agent_id).
Proof.
  intros self query agent_id. rewrite !relevance_score_raw.
  apply Q.min_le_compat_r.
  unfold raw_score. apply (score_affinity_ge self (Some agent_id)).
Qed.

Lemma Qmin_below (x y : Q) : x <= y -> Qmin x y = x.
Proof.
  intros H. unfold Qmin, GenericMinMax.gmin.
  destruct (x ?= y) eqn:E; auto.
  rewrite <- Qgt_alt in E. lra.
Qed.

(** On the empty query the description and keyword sections leave the
    score alone, the latter provided no keyword is the empty string. *)

Lemma inter_nil_r (a : list str) : inter a [] = [].
Proof. unfold inter. induction a as [|w a IH]; simpl; auto. Qed.

Lemma score_description_empty_query self score :
  score_description self [] score = score.
Proof.
  unfold score_description. destruct (negb (is_nil (description self))); auto.
  cbv zeta. change (to_set (split [])) with (@nil str).
  rewrite inter_nil_r. reflexivity.
Qed.

Lemma py_in_empty_text (t : str) : py_in t [] = is_nil t.
Proof. destruct t; reflexivity. Qed.

Lemma score_keywords_empty_query self score :
  Forall (fun k => k <> []) (keywords self) ->
  score_keywords self [] score = score.
Proof.
  unfold score_keywords. generalize (keywords self) as ks.
  intros ks H. revert score.
  induction H as [|k ks Hk _ IH]; intros score; cbn [fold_left]; auto.
  rewrite py_in_empty_text. destruct k; [contradiction|]. apply IH.
Qed.

(** C8 (amended): for a skill none of whose keywords is the empty string,
    and any optional agent id, the score of the empty query is made of the
    name-match and agent-affinity contributions only: the description and
    keyword sections leave the running score unchanged, and the final clamp
    does not apply. *)
Theorem empty_query_score :
  forall (self : Skill.t) (agent_id : option str),
    Forall (fun k => k <> []) (keywords self) ->
    relevance_score self [] agent_id =
      score_affinity self agent_id (score_name self [] 0) /\
    (forall score, score_description self [] score = score) /\
    (forall score, score_keywords self [] score = score).
Proof.
  intros self agent_id Hk. split; [|split].
  - rewrite relevance_score_raw. unfold raw_score. simpl lower.
    rewrite score_description_empty_query, score_keywords_empty_query by assumption.
    apply Qmin_below.
    unfold score_affinity, score_name.
    destruct (py_in _ _), agent_id as [a|];
      try destruct (negb (is_nil a));
      try destruct (affinity_range self a) as [-> | ->]; lra.
  - apply score_description_empty_query.
  - intros score. apply score_keywords_empty_query; assumption.
Qed.

End ScoreFacts.

(** * Properties of keyword extraction *)

Module KeywordFacts.
Import Skill Spec Analysis.

(** ** Case-insensitive search is search in the lowercased text *)

Lemma ci_startswith_lower t s :
  ci_startswith t s = startswith (lower t) (lower s).
Proof.
  revert s. induction t as [|a t IH]; intros [|b s]; simpl; auto.
  rewrite IH. reflexivity.
Qed.

Lemma ci_in_lower t s : ci_in t s = py_in (lower t) (lower s).
Proof.
  induction s as [|b s IH]; simpl.
  - rewrite ci_startswith_lower. reflexivity.
  - rewrite ci_startswith_lower, IH. reflexivity.
Qed.

(** ** The vocabulary *)

Lemma tech_keywords_lowercase : Forall is_lowercase tech_keywords.
Proof.
  apply Forall_forall. intros k Hk.
  assert (H : forallb (fun k => str_eqb (lower k) k) tech_keywords = true)
    by (vm_compute; reflexivity).
  rewrite forallb_forall in H. specialize (H k Hk).
  unfold str_eqb in H. destruct (list_eq_dec ascii_dec (lower k) k); [assumption|discriminate].
Qed.

(** ** The separator between description and document

    [_parse_skill_file] scans [description + " " + content[:500]].  The
    space cannot create or destroy an occurrence of a vocabulary term at the
    seam: a description is only ever set from a document that starts with the
    header delimiter, and no term can run from the description into
    ["---"], with or without a space before it. *)

Lemma tech_keywords_seam_safe :
  forall t, In t tech_keywords -> seam_safe t = true.
Proof.
  assert (H : forallb seam_safe tech_keywords = true) by (vm_compute; reflexivity).
  rewrite forallb_forall in H. exact H.
Qed.

Lemma seam_free_startswith u x :
  seam_free u = true ->
  startswith u (space :: dash :: dash :: dash :: x) =
  startswith u (dash :: dash :: dash :: x).
Proof.
  destruct u as [|c [|d u]]; simpl; auto; intros H.
  - rewrite orb_false_r in H. apply andb_true_iff in H as [H1 H2].
    apply negb_true_iff in H1, H2. rewrite H1, H2. reflexivity.
  - apply orb_true_iff in H as [H|H].
    + apply andb_true_iff in H as [H1 H2].
      apply negb_true_iff in H1, H2. rewrite H1, H2. reflexivity.
    + apply negb_true_iff in H. rewrite H. simpl.
      rewrite !andb_false_r. reflexivity.
Qed.

Lemma startswith_across_seam t a x :
  all_tails seam_free t = true ->
  startswith t (a ++ space :: dash :: dash :: dash :: x) =
  startswith t (a ++ dash :: dash :: dash :: x).
Proof.
  revert t. induction a as [|h a IH]; intros t Ht.
  - simpl app. apply seam_free_startswith.
    destruct t; simpl in Ht; [reflexivity|].
    apply andb_true_iff in Ht as [Ht _]. exact Ht.
  - destruct t as [|c t]; [reflexivity|].
    simpl. f_equal. apply IH.
    simpl in Ht. apply andb_true_iff in Ht as [_ Ht]. exact Ht.
Qed.

Lemma startswith_space t x :
  head_not_space t = true -> startswith t (space :: x) = false.
Proof.
  destruct t as [|c t]; simpl; [discriminate|].
  intros H. apply negb_true_iff in H. rewrite H. reflexivity.
Qed.

Lemma py_in_skip_space t x :
  head_not_space t = true -> py_in t (space :: x) = py_in t x.
Proof.
  intros H. cbn [py_in]. rewrite (startswith_space _ _ H). reflexivity.
Qed.

Lemma py_in_across_seam t a x :
  seam_safe t = true ->
  py_in t (a ++ space :: dash :: dash :: dash :: x) =
  py_in t (a ++ dash :: dash :: dash :: x).
Proof.
  intros H. apply andb_true_iff in H as [Ht Hh].
  induction a as [|h a IH].
  - simpl app. apply py_in_skip_space. exact Hh.
  - change ((h :: a) ++ ?y) with (h :: (a ++ y)).
    cbn [py_in]. rewrite IH.
    change (h :: a ++ ?y) with ((h :: a) ++ y).
    rewrite (startswith_across_seam t (h :: a) x Ht). reflexivity.
Qed.

(** ** What the parser guarantees about its own output *)

Lemma startswith_split p s :
  startswith p s = true -> s = p ++ skipn (length p) s.
Proof.
  revert s. induction p as [|a p IH]; intros [|b s]; simpl; auto; try discriminate.
  intros H. apply andb_true_iff in H as [E H].
  apply Ascii.eqb_eq in E. subst b. f_equal. apply IH. exact H.
Qed.

Lemma frontmatter_needs_delimiter content :
  startswith (tx "---") content = false -> frontmatter content = None.
Proof.
  intros H. unfold frontmatter, match_here, frontmatter_re.
  cbn [pre run]. rewrite H. reflexivity.
Qed.

Lemma description_needs_delimiter content :
  parsed_description content <> [] -> startswith (tx "---") content = true.
Proof.
  intros H. destruct (startswith (tx "---") content) eqn:E; auto.
  exfalso. apply H. unfold parsed_description.
  rewrite (frontmatter_needs_delimiter _ E). reflexivity.
Qed.

Lemma split_by_nonempty P s : split_by P s <> [].
Proof.
  destruct s as [|a s]; simpl; [discriminate|].
  destruct (P a); [discriminate|]. destruct (split_by P s); discriminate.
Qed.

(** An explicit keyword list is never empty, so the parser derives the
    keywords exactly when it finds no explicit list. *)
Lemma explicit_keywords_nonempty content ks :
  explicit_keywords content = Some ks -> is_nil ks = false.
Proof.
  unfold explicit_keywords.
  destruct (frontmatter content) as [fm|]; [|discriminate].
  destruct (search keywords_re fm) as [g|]; [|discriminate].
  intros H. inversion H; subst. unfold split_on.
  pose proof (split_by_nonempty (Ascii.eqb ","%char) g) as Hne.
  destruct (split_by (Ascii.eqb ","%char) g); [contradiction|reflexivity].
Qed.

Lemma keywords_when_explicit nm content ks :
  explicit_keywords content = Some ks ->
  keywords (_parse_skill_file nm content) = ks.
Proof.
  intros H. unfold _parse_skill_file. rewrite H.
  rewrite (explicit_keywords_nonempty content ks H). reflexivity.
Qed.

Lemma keywords_when_derived nm content :
  explicit_keywords content = None ->
  keywords (_parse_skill_file nm content) =
  _extract_keywords (parsed_description content ++ tx " " ++ firstn 500 content).
Proof. intros H. unfold _parse_skill_file. rewrite H. reflexivity. Qed.

Lemma extract_keywords_firstn text :
  _extract_keywords text =
  firstn 10 (filter (fun keyword => py_in keyword (lower text)) tech_keywords).
Proof. reflexivity. Qed.

Lemma lower_app a b : lower (a ++ b) = lower a ++ lower b.
Proof. apply map_app. Qed.

(** The scanned text and the plain concatenation contain the same terms. *)
Lemma separator_is_harmless content t :
  In t tech_keywords ->
  py_in t (lower (parsed_description content ++ tx " " ++ firstn 500 content)) =
  py_in t (lower (parsed_description content ++ firstn 500 content)).
Proof.
  intros Ht. pose proof (tech_keywords_seam_safe t Ht) as Hs.
  destruct (parsed_description content) as [|c d] eqn:Ed.
  - simpl app. apply py_in_skip_space.
    apply andb_true_iff in Hs as [_ Hs]. exact Hs.
  - assert (Hc : startswith (tx "---") content = true).
    { apply description_needs_delimiter. rewrite Ed. discriminate. }
    apply startswith_split in Hc. rewrite Hc.
    change (firstn 500 (tx "---" ++ ?r)) with (tx "---" ++ firstn 497 r).
    rewrite !lower_app.
    apply (py_in_across_seam t (lower (c :: d)) _ Hs).
Qed.

(** C9: when the header block yields no explicit keyword list, the keywords
    of the parsed skill are the vocabulary terms occurring case-insensitively
    in the description followed by the first 500 characters of the document,
    in vocabulary order, cut to the first ten. *)
Theorem derived_keywords_match_spec :
  forall (nm content : str),
    explicit_keywords content = None ->
    keywords (_parse_skill_file nm content) =
    derived_keywords_spec (description (_parse_skill_file nm content)) content.
Proof.
  intros nm content H.
  rewrite (keywords_when_derived nm content H), extract_keywords_firstn.
  unfold derived_keywords_spec. f_equal.
  apply filter_ext_in. intros t Ht.
  rewrite (separator_is_harmless content t Ht).
  rewrite ci_in_lower.
  pose proof tech_keywords_lowercase as Hl.
  rewrite Forall_forall in Hl. rewrite (Hl t Ht). reflexivity.
Qed.

(** ** The keyword invariant on the derived path *)

Lemma extract_keywords_lowercase text :
  Forall is_lowercase (_extract_keywords text).
Proof.
  rewrite extract_keywords_firstn. apply Forall_forall. intros k Hk.
  apply In_firstn, filter_In in Hk as [Hk _].
  pose proof tech_keywords_lowercase as Hl.
  rewrite Forall_forall in Hl. auto.
Qed.

Lemma extract_keywords_nonempty text :
  Forall (fun k => k <> []) (_extract_keywords text).
Proof.
  rewrite extract_keywords_firstn. apply Forall_forall. intros k Hk.
  apply In_firstn, filter_In in Hk as [Hk _].
  assert (H : forallb (fun k => negb (is_nil k)) tech_keywords = true)
    by (vm_compute; reflexivity).
  rewrite forallb_forall in H. specialize (H k Hk).
  destruct k; [discriminate|discriminate].
Qed.

Lemma extract_keywords_capped text :
  (length (_extract_keywords text) <= 10)%nat.
Proof. rewrite extract_keywords_firstn. apply firstn_le_length. Qed.

Lemma dict_set_values {V} (P : V -> Prop) d key (v : V) :
  Forall P (map snd d) -> P v -> Forall P (map snd (dict_set d key v)).
Proof.
  intros Hd Hv. induction d as [|[k w] d IH]; simpl.
  - constructor; auto.
  - inversion Hd; subst. destruct (str_eqb k key); simpl; constructor; auto.
Qed.

Lemma loaded_skills_parsed skills_dir :
  Forall parsed (SkillLoader.values (SkillLoader._load_all_skills skills_dir)).
Proof.
  unfold SkillLoader.values, SkillLoader._load_all_skills.
  destruct skills_dir as [entries|]; [|constructor].
  cbn [SkillLoader.skills].
  assert (H : Forall parsed (map snd (@nil (str * Skill.t)))) by constructor.
  revert H. generalize (@nil (str * Skill.t)) as d.
  induction entries as [|e entries IH]; intros d Hd; simpl; auto.
  apply IH.
  destruct (SkillLoader.is_dir e); simpl; auto.
  destruct (SkillLoader.skill_md e) as [c|]; auto.
  apply dict_set_values; auto. reflexivity.
Qed.

(** C5 (amended): for every skill loaded by the catalog whose header block
    yields no explicit keyword list, so that the keywords come from the
    vocabulary scan, every keyword is a lowercase string and there are at
    most 10 of them. *)
Theorem derived_keywords_invariant :
  forall (skills_dir : option (list SkillLoader.dir_entry)) (skill : Skill.t),
    In skill (SkillLoader.values (SkillLoader._load_all_skills skills_dir)) ->
    explicit_keywords (content skill) = None ->
    Forall is_lowercase (keywords skill) /\ (length (keywords skill) <= 10)%nat.
Proof.
  intros skills_dir skill Hin Hexp.
  pose proof (loaded_skills_parsed skills_dir) as Hp.
  rewrite Forall_forall in Hp. specialize (Hp skill Hin). red in Hp.
  rewrite Hp, (keywords_when_derived _ _ Hexp).
  split; [apply extract_keywords_lowercase | apply extract_keywords_capped].
Qed.

End KeywordFacts.

(** * Properties of skill selection *)

Module SelectFacts.
Import SkillLoader Spec Analysis.

Section Sorting.
Context {A : Type}.
Implicit Types (x y : A * Q) (l : list (A * Q)).

Lemma insert_desc_In z x l : In z (insert_desc x l) <-> z = x \/ In z l.
Proof.
  induction l as [|y l IH]; simpl.
  - intuition.
  - destruct (Qle_bool (snd y) (snd x)); simpl; [intuition|].
    rewrite IH. intuition.
Qed.

Lemma sort_desc_In z l : In z (sort_desc l) <-> In z l.
Proof.
  induction l as [|x l IH]; simpl; [tauto|].
  rewrite insert_desc_In, IH. intuition.
Qed.

Lemma insert_desc_sorted x l :
  StronglySorted by_score_desc l -> StronglySorted by_score_desc (insert_desc x l).
Proof.
  induction 1 as [|y l Hl IH Hy]; simpl.
  - repeat constructor.
  - destruct (Qle_bool (snd y) (snd x)) eqn:E.
    + apply Qle_bool_iff in E.
      constructor; [constructor; assumption|].
      constructor; [exact E|].
      rewrite Forall_forall in Hy |- *. intros z Hz.
      unfold by_score_desc in *. specialize (Hy z Hz). lra.
    + constructor; [exact IH|].
      apply Forall_forall. intros z Hz. apply insert_desc_In in Hz as [->|Hz].
      * unfold by_score_desc.
        destruct (Qlt_le_dec (snd x) (snd y)) as [Hlt|Hle]; [lra|].
        apply Qle_bool_iff in Hle. congruence.
      * rewrite Forall_forall in Hy. auto.
Qed.

Lemma sort_desc_sorted l : StronglySorted by_score_desc (sort_desc l).
Proof.
  induction l as [|x l IH]; simpl; [constructor|].
  apply insert_desc_sorted, IH.
Qed.

Lemma insert_desc_stable v x l :
  filter (has_score v) (insert_desc x l) = filter (has_score v) (x :: l).
Proof.
  induction l as [|y l IH]; [reflexivity|].
  cbn [insert_desc]. destruct (Qle_bool (snd y) (snd x)) eqn:E; [reflexivity|].
  cbn [filter] in IH |- *. rewrite IH.
  destruct (has_score v x) eqn:Ex; [|reflexivity].
  destruct (has_score v y) eqn:Ey; [|reflexivity].
  exfalso. unfold has_score in *.
  apply Qeq_bool_iff in Ex, Ey.
  assert (H : Qle_bool (snd y) (snd x) = true) by (apply Qle_bool_iff; lra).
  congruence.
Qed.

Lemma sort_desc_stable v l :
  filter (has_score v) (sort_desc l) = filter (has_score v) l.
Proof.
  induction l as [|x l IH]; [reflexivity|].
  cbn [sort_desc]. rewrite insert_desc_stable. cbn [filter]. rewrite IH.
  reflexivity.
Qed.

(** A sorted list is determined by the entries of each score, in their
    order: whatever algorithm [list.sort] runs, being sorted and stable it
    returns what [sort_desc] returns. *)
Lemma has_score_refl x : has_score (snd x) x = true.
Proof. unfold has_score. apply Qeq_bool_iff. reflexivity. Qed.

Lemma stable_sorted_unique l1 l2 :
  StronglySorted by_score_desc l1 ->
  StronglySorted by_score_desc l2 ->
  (forall v, filter (has_score v) l1 = filter (has_score v) l2) ->
  l1 = l2.
Proof.
  intros H1. revert l2.
  induction H1 as [|x l1 Hs1 IH Hx]; intros l2 H2 Hf.
  - destruct l2 as [|y l2]; [reflexivity|].
    specialize (Hf (snd y)). cbn [filter] in Hf.
    rewrite has_score_refl in Hf. discriminate Hf.
  - destruct H2 as [|y l2 Hs2 Hy].
    { specialize (Hf (snd x)). cbn [filter] in Hf.
      rewrite has_score_refl in Hf. discriminate Hf. }
    assert (Hyx : snd y <= snd x).
    { assert (Hin : In y (x :: l1)).
      { apply (proj1 (filter_In (has_score (snd y)) y (x :: l1))).
        rewrite Hf. cbn [filter]. rewrite has_score_refl. left. reflexivity. }
      destruct Hin as [<-|Hin]; [lra|].
      rewrite Forall_forall in Hx. apply (Hx y Hin). }
    assert (Hxy : snd x <= snd y).
    { assert (Hin : In x (y :: l2)).
      { apply (proj1 (filter_In (has_score (snd x)) x (y :: l2))).
        rewrite <- Hf. cbn [filter]. rewrite has_score_refl. left. reflexivity. }
      destruct Hin as [<-|Hin]; [lra|].
      rewrite Forall_forall in Hy. apply (Hy x Hin). }
    assert (Hyv : has_score (snd x) y = true).
    { unfold has_score. apply Qeq_bool_iff. lra. }
    pose proof (Hf (snd x)) as Hhead. cbn [filter] in Hhead.
    rewrite has_score_refl, Hyv in Hhead.
    injection Hhead as -> _.
    f_equal. apply IH; [exact Hs2|].
    intros v. specialize (Hf v). cbn [filter] in Hf.
    destruct (has_score v y); [injection Hf as Hf|]; exact Hf.
Qed.

Lemma sort_desc_characterised l l' :
  StronglySorted by_score_desc l' ->
  (forall v, filter (has_score v) l' = filter (has_score v) l) ->
  l' = sort_desc l.
Proof.
  intros Hs Hf. apply stable_sorted_unique; [exact Hs|apply sort_desc_sorted|].
  intros v. rewrite Hf, sort_desc_stable. reflexivity.
Qed.

Lemma firstn_sorted n l :
  StronglySorted by_score_desc l -> StronglySorted by_score_desc (firstn n l).
Proof.
  intros H. revert n. induction H as [|y l Hl IH Hy]; intros [|n]; simpl;
    try constructor; auto.
  apply Forall_forall. intros z Hz. apply In_firstn in Hz.
  rewrite Forall_forall in Hy. auto.
Qed.

End Sorting.

Lemma filter_firstn {B} (P : B -> bool) n (l : list B) :
  exists k, filter P (firstn n l) = firstn k (filter P l).
Proof.
  revert n. induction l as [|b l IH]; intros [|n]; simpl;
    try (exists 0%nat; reflexivity).
  destruct (IH n) as [k Hk]. destruct (P b).
  - exists (S k). simpl. f_equal. exact Hk.
  - exists k. exact Hk.
Qed.

Lemma scored_In self query agent_id min_score p :
  In p (scored self query agent_id min_score) ->
  In (fst p) (values self) /\
  snd p = Skill.relevance_score (fst p) query agent_id /\
  min_score <= snd p.
Proof.
  unfold scored. rewrite in_flat_map. intros [skill [Hs Hp]].
  cbv zeta in Hp.
  destruct (Qle_bool _ _) eqn:E; [|contradiction].
  destruct Hp as [<-|[]]. simpl. apply Qle_bool_iff in E. auto.
Qed.

Lemma Qle_bool_compat_r (m a b : Q) : a == b -> Qle_bool m a = Qle_bool m b.
Proof.
  intros H. destruct (Qle_bool m a) eqn:Ea, (Qle_bool m b) eqn:Eb; auto.
  - apply Qle_bool_iff in Ea.
    assert (Qle_bool m b = true) by (apply Qle_bool_iff; lra). congruence.
  - apply Qle_bool_iff in Eb.
    assert (Qle_bool m a = true) by (apply Qle_bool_iff; lra). congruence.
Qed.

Lemma scored_of_score self query agent_id min_score v :
  map fst (filter (has_score v) (scored self query agent_id min_score)) =
  if Qle_bool min_score v
  then filter (fun skill => Qeq_bool (Skill.relevance_score skill query agent_id) v)
              (values self)
  else [].
Proof.
  unfold scored. induction (values self) as [|skill l IH].
  - simpl. destruct (Qle_bool min_score v); reflexivity.
  - cbn [flat_map]. rewrite filter_app, map_app, IH. cbv zeta.
    cbn [filter].
    destruct (Qeq_bool (Skill.relevance_score skill query agent_id) v) eqn:Ev.
    + pose proof Ev as Ev'. apply Qeq_bool_iff in Ev'.
      rewrite (Qle_bool_compat_r min_score _ _ Ev').
      destruct (Qle_bool min_score v); [|reflexivity].
      cbn [filter]. unfold has_score. cbn [snd]. rewrite Ev. reflexivity.
    + destruct (Qle_bool min_score (Skill.relevance_score skill query agent_id));
        cbn [filter]; unfold has_score; cbn [snd]; try rewrite Ev;
        destruct (Qle_bool min_score v); reflexivity.
Qed.

(** C1: for every catalog, query, optional agent id and min_score, and
    every max_skills that is a count (not negative), [select_skills]
    returns at most max_skills entries; every returned pair is a skill of
    the catalog with its own score, which is at least min_score; the list
    is in descending score order; and for each score value the returned
    skills having that score are an initial segment of the catalog's skills
    having that score, in the catalog's iteration order. *)
Theorem select_skills_spec :
  forall (self : SkillLoader.t) (query : str) (agent_id : option str)
         (max_skills : Z) (min_score : Q),
    (0 <= max_skills)%Z ->
    let result := select_skills self query agent_id max_skills min_score in
    (Z.of_nat (length result) <= max_skills)%Z /\
    Forall (fun p => In (fst p) (values self) /\
                     snd p = Skill.relevance_score (fst p) query agent_id /\
                     min_score <= snd p) result /\
    StronglySorted by_score_desc result /\
    (forall v : Q, exists k,
        map fst (filter (has_score v) result) =
        firstn k (filter (fun skill =>
                            Qeq_bool (Skill.relevance_score skill query agent_id) v)
                         (values self))).
Proof.
  intros self query agent_id max_skills min_score Hmax result.
  assert (Hres : result =
                 firstn (Z.to_nat max_skills)
                        (sort_desc (scored self query agent_id min_score))).
  { unfold result, select_skills, slice_to.
    destruct (0 <=? max_skills)%Z eqn:E; [reflexivity|]. lia. }
  rewrite Hres. split; [|split; [|split]].
  - pose proof (firstn_le_length (Z.to_nat max_skills)
                  (sort_desc (scored self query agent_id min_score))). lia.
  - apply Forall_forall. intros p Hp.
    apply In_firstn in Hp. apply (proj1 (sort_desc_In _ _)) in Hp.
    exact (scored_In self query agent_id min_score p Hp).
  - apply firstn_sorted, sort_desc_sorted.
  - intros v.
    destruct (filter_firstn (has_score v) (Z.to_nat max_skills)
                (sort_desc (scored self query agent_id min_score))) as [k Hk].
    rewrite Hk, sort_desc_stable, <- firstn_map, scored_of_score.
    destruct (Qle_bool min_score v).
    + exists k. reflexivity.
    + exists 0%nat. destruct k; reflexivity.
Qed.

End SelectFacts.

(** * Properties of the orchestrator *)

Module OrchestratorFacts.
Import Py Orchestrator Spec Analysis.

Section Facts.
Variable env : Env.
Variable self : Orchestrator.t.

(** ** The approval gate *)

Lemma to_dict_has_no_message (r : RunResult.t) :
  has_key (to_dict r) (tx "message") = false /\
  has_key (to_dict r) (tx "errors") = true.
Proof. split; reflexivity. Qed.

Lemma cancelled_keys :
  has_key cancelled (tx "message") = true /\
  has_key cancelled (tx "errors") = false.
Proof. split; reflexivity. Qed.

(** ** Loading the state *)

Lemma load_state_absent w :
  state_file w = None ->
  load_state env w = (Returned (default_state (isoformat env (ticks w))), tick w).
Proof.
  intros H. unfold load_state, bind, gets, ret, now_isoformat.
  rewrite H. reflexivity.
Qed.

Lemma load_state_corrupt w text :
  state_file w = Some text ->
  json_load env text = None ->
  load_state env w = (Returned (default_state (isoformat env (ticks w))), tick w).
Proof.
  intros H1 H2.
  cbv [load_state bind gets ret try_except read_state_file now_isoformat].
  rewrite H1. cbv beta iota. rewrite H1, H2. reflexivity.
Qed.

Lemma init_state_default w :
  (state_file w = None \/
   exists text, state_file w = Some text /\ json_load env text = None) ->
  exists w', init_state env w = (Returned tt, w') /\ is_dict (state w') = true.
Proof.
  intros H. unfold init_state, bind, modify.
  destruct H as [H | [text [H1 H2]]].
  - rewrite (load_state_absent w H). eexists. split; reflexivity.
  - rewrite (load_state_corrupt w text H1 H2). eexists. split; reflexivity.
Qed.

(** ** Writing the state *)

Lemma state_setitem_dict key v w d :
  state w = Dict d ->
  state_setitem key v w =
  (Returned tt, set_state (Dict (dict_set d key v)) w).
Proof. intros H. unfold state_setitem. rewrite H. reflexivity. Qed.

Lemma state_setitem_raises key v w :
  is_dict (state w) = false -> state_setitem key v w = (Raised TypeError, w).
Proof.
  unfold state_setitem. destruct (state w); simpl; try reflexivity; discriminate.
Qed.

Lemma save_state_dict w d :
  state w = Dict d ->
  exists w', save_state env w = (Returned tt, w') /\
             is_dict (state w') = true /\
             ticks w' = S (ticks w).
Proof.
  intros H. unfold save_state, bind, now_isoformat.
  rewrite (state_setitem_dict _ _ (tick w) d H).
  eexists. split; [reflexivity|]. split; reflexivity.
Qed.

(** ** The agent loop *)

Lemma log_agent_execution_returns agent_id query skills w :
  exists w', _log_agent_execution env agent_id query skills w = (Returned tt, w') /\
             state w' = state w /\ ticks w' = ticks w.
Proof.
  unfold _log_agent_execution, modify.
  eexists. split; [reflexivity|].
  destruct (session_file w); split; reflexivity.
Qed.

Lemma pipeline_loop_spec query params agent_ids :
  forall results w,
  exists results' w',
    pipeline_loop env self query params agent_ids results w = (Returned results', w') /\
    state w' = state w /\ ticks w' = ticks w /\
    RunResult.errors results' =
      RunResult.errors results ++
      map not_found_message (filter (unregistered self) agent_ids) /\
    map StepResult.agent_id (RunResult.agents_executed results') =
      map StepResult.agent_id (RunResult.agents_executed results) ++
      filter (registered self) agent_ids /\
    RunResult.success results' =
      RunResult.success results && forallb (registered self) agent_ids.
Proof.
  induction agent_ids as [|agent_id rest IH]; intros results w.
  - exists results, w. simpl. rewrite !app_nil_r, andb_true_r.
    repeat split; reflexivity.
  - cbn [pipeline_loop filter forallb].
    destruct (lookup (agents self) agent_id) as [agent|] eqn:E.
    + assert (Hreg : registered self agent_id = true)
        by (unfold registered; rewrite E; reflexivity).
      assert (Hun : unregistered self agent_id = false)
        by (unfold unregistered; rewrite Hreg; reflexivity).
      rewrite Hreg, Hun. unfold bind.
      set (selected := SkillLoader.select_skills _ _ _ _ _).
      destruct (log_agent_execution_returns agent_id query selected w)
        as [w1 [Hlog [Hs1 Ht1]]].
      rewrite Hlog.
      match goal with
      | |- context [pipeline_loop _ _ _ _ rest ?r w1] =>
          destruct (IH r w1) as [results' [w' [Hrun [Hs [Ht [He [Ha Hok]]]]]]]
      end.
      exists results', w'. rewrite Hrun.
      split; [reflexivity|]. split; [congruence|]. split; [congruence|].
      split; [exact He|]. split; [|exact Hok].
      rewrite Ha. cbn [record_step RunResult.agents_executed].
      rewrite map_app, <- app_assoc. reflexivity.
    + assert (Hreg : registered self agent_id = false)
        by (unfold registered; rewrite E; reflexivity).
      assert (Hun : unregistered self agent_id = true)
        by (unfold unregistered; rewrite Hreg; reflexivity).
      rewrite Hreg, Hun.
      destruct (IH (record_error (not_found_message agent_id) results) w)
        as [results' [w' [Hrun [Hs [Ht [He [Ha Hok]]]]]]].
      exists results', w'. rewrite Hrun. cbn [map andb].
      split; [reflexivity|]. split; [exact Hs|]. split; [exact Ht|].
      split; [|split; [exact Ha|]].
      * rewrite He. cbn [record_error RunResult.errors].
        rewrite <- app_assoc. reflexivity.
      * rewrite Hok. cbn [record_error RunResult.success].
        rewrite andb_false_r. reflexivity.
Qed.

Lemma no_errors_iff_all_registered agent_ids :
  map not_found_message (filter (unregistered self) agent_ids) = [] <->
  forallb (registered self) agent_ids = true.
Proof.
  induction agent_ids as [|a l IH]; simpl; [tauto|].
  unfold unregistered at 1. destruct (registered self a); simpl.
  - exact IH.
  - split; discriminate.
Qed.

Lemma execute_pipeline_with_state_dict task_type agent_ids params w :
  is_dict (state w) = true ->
  exists results w',
    execute_pipeline env self task_type agent_ids params w = (Returned results, w') /\
    records_partial_failure self agent_ids results.
Proof.
  intros Hw.
  destruct (state w) as [| | | | | |d] eqn:Ew; try discriminate.
  unfold execute_pipeline.
  unfold bind at 1. rewrite (state_setitem_dict _ _ w d Ew).
  unfold bind at 1. erewrite state_setitem_dict by reflexivity.
  unfold bind at 1.
  match goal with
  | |- context [save_state env ?w0] =>
      destruct (save_state_dict w0 _ eq_refl) as [w1 [Hsave [Hd1 _]]]
  end.
  rewrite Hsave. cbv zeta.
  unfold bind at 1.
  match goal with
  | |- context [pipeline_loop env self ?q params agent_ids ?r w1] =>
      destruct (pipeline_loop_spec q params agent_ids r w1)
        as [results [w2 [Hrun [Hs2 [_ [He [Ha Hok]]]]]]]
  end.
  rewrite Hrun.
  destruct (state w2) as [| | | | | |d2] eqn:Ew2;
    try (rewrite <- Hs2 in Hd1; discriminate Hd1).
  unfold bind at 1. rewrite (state_setitem_dict _ _ w2 d2 Ew2).
  unfold bind at 1.
  match goal with
  | |- context [save_state env ?w0] =>
      destruct (save_state_dict w0 _ eq_refl) as [w3 [Hsave3 _]]
  end.
  rewrite Hsave3. unfold ret.
  cbn [RunResult.errors RunResult.agents_executed RunResult.success map app andb]
    in He, Ha, Hok.
  exists results, w3. split; [reflexivity|].
  split; [exact He|]. split; [exact Ha|]. split.
  - rewrite He, Hok. symmetry. apply no_errors_iff_all_registered.
  - intros a b -> Hra Hrb.
    assert (Hlen : length (map StepResult.agent_id (RunResult.agents_executed results)) = 1%nat).
    { rewrite Ha. simpl. rewrite Hra, Hrb. reflexivity. }
    rewrite length_map in Hlen.
    split; [exact Hlen|]. split.
    + rewrite He. simpl. unfold unregistered. rewrite Hra, Hrb. reflexivity.
    + rewrite Hok. simpl. rewrite Hra, Hrb. reflexivity.
Qed.

(** Without a state dictionary the run stops at its first statement. *)
Lemma execute_pipeline_needs_state_dict task_type agent_ids params w :
  is_dict (state w) = false ->
  execute_pipeline env self task_type agent_ids params w = (Raised TypeError, w).
Proof.
  intros H. unfold execute_pipeline. unfold bind at 1.
  rewrite (state_setitem_raises _ _ w H). reflexivity.
Qed.

(** C4: every result that [execute_pipeline] returns holds one
    "Agent <id> not found" error for each agent id that does not resolve, in
    order, and one step result for each agent id that resolves, in order:
    an unresolved id is skipped and the loop goes on.  The success flag is
    true exactly when there is no error.  For two agent ids of which only
    the first resolves there is one step result, one error naming the
    second id, and the flag is false.  The run does return a result
    whenever the orchestrator's state is a dictionary. *)
Theorem execute_pipeline_partial_failure :
  forall (task_type : TaskType) (agent_ids : list str) (params : Params)
         (w : World),
    (forall results w',
        execute_pipeline env self task_type agent_ids params w = (Returned results, w') ->
        records_partial_failure self agent_ids results) /\
    (is_dict (state w) = true ->
     exists results w',
       execute_pipeline env self task_type agent_ids params w = (Returned results, w')).
Proof.
  intros task_type agent_ids params w. split.
  - intros results w' Hrun.
    destruct (is_dict (state w)) eqn:Hd.
    + destruct (execute_pipeline_with_state_dict task_type agent_ids params w Hd)
        as [results0 [w0 [Hrun0 Hok]]].
      rewrite Hrun in Hrun0. inversion Hrun0; subst. exact Hok.
    + rewrite (execute_pipeline_needs_state_dict task_type agent_ids params w Hd)
        in Hrun.
      discriminate Hrun.
  - intros Hd.
    destruct (execute_pipeline_with_state_dict task_type agent_ids params w Hd)
      as [results [w' [Hrun _]]].
    exists results, w'. exact Hrun.
Qed.

(** C6: when the state file is absent, or its content makes [json.load]
    raise, [load_state] returns (it does not raise) the default state: phase
    "IDLE", no active task, no active agents and an empty history. *)
Theorem load_state_falls_back_to_default :
  forall (w : World),
    (state_file w = None \/
     exists text, state_file w = Some text /\ json_load env text = None) ->
    exists loaded w',
      load_state env w = (Returned loaded, w') /\
      loaded = default_state (isoformat env (ticks w)) /\
      get loaded (tx "current_phase") = Some (Str (tx "IDLE")) /\
      get loaded (tx "active_task") = Some None_ /\
      get loaded (tx "active_agents") = Some (List_ []) /\
      get loaded (tx "history") = Some (List_ []) /\
      state_file w' = state_file w.
Proof.
  intros w H.
  exists (default_state (isoformat env (ticks w))), (tick w).
  split; [|repeat split; reflexivity].
  destruct H as [H | [text [H1 H2]]].
  - apply load_state_absent; assumption.
  - eapply load_state_corrupt; eassumption.
Qed.

(** C7: when the task type requires approval and the answer read from the
    console is anything but "y" (after stripping and lowercasing),
    [process_user_request] returns the cancellation dictionary, which has a
    "message" key and no "errors" key while every pipeline result, failed
    or not, has "errors" and no "message"; and the pipeline is not run: the
    outcome is the same for whatever is put in the place of
    [execute_pipeline], and the world is left as it was except for the line
    consumed from the console. *)
Theorem refused_approval_cancels :
  forall (user_input : str) (w : World) (answer : str) (rest : list str),
    should_ask_for_approval (intent_parser self)
      (fst (parse (intent_parser self) user_input)) = true ->
    stdin w = answer :: rest ->
    lower (strip answer) <> tx "y" ->
    process_user_request env self user_input w = (Returned cancelled, set_stdin rest w) /\
    (forall run,
        process_user_request_with self run user_input w =
        (Returned cancelled, set_stdin rest w)) /\
    get cancelled (tx "message") = Some (Str (tx "Task cancelled by user")) /\
    (forall r : RunResult.t,
        to_dict r <> cancelled /\
        has_key (to_dict r) (tx "message") = false /\
        has_key cancelled (tx "message") = true /\
        has_key (to_dict r) (tx "errors") = true /\
        has_key cancelled (tx "errors") = false).
Proof.
  intros user_input w answer rest Hask Hin Hno.
  assert (Hgen : forall run,
             process_user_request_with self run user_input w =
             (Returned cancelled, set_stdin rest w)).
  { intros run. unfold process_user_request_with.
    destruct (parse (intent_parser self) user_input) as [task_type params].
    simpl in Hask. rewrite Hask.
    unfold bind, input, ret. rewrite Hin.
    unfold str_eqb.
    destruct (list_eq_dec ascii_dec (lower (strip answer)) (tx "y"));
      [contradiction|reflexivity]. }
  split; [apply Hgen|]. split; [exact Hgen|]. split; [reflexivity|].
  intros r. split; [|repeat split; reflexivity].
  intros E. assert (H : has_key (to_dict r) (tx "message") = has_key cancelled (tx "message"))
    by (rewrite E; reflexivity).
  discriminate H.
Qed.

End Facts.

End OrchestratorFacts.

(** * The scenarios *)

Module ScenarioFacts.
Import Py Orchestrator Spec Scenario.

(** ** The parser on small documents *)

Example header_may_be_empty :
  parse_view (lines ["---"; EmptyString; "---"]%string) = (Some [], [], []).
Proof. vm_compute. reflexivity. Qed.

Example header_delimiter_backtracks :
  parse_view (lines ["---  "; EmptyString; " a"; "---"; EmptyString; "---"]%string) = (Some (tx " a"), [], []).
Proof. vm_compute. reflexivity. Qed.

Example header_must_open_the_document :
  parse_view (lines ["x---"; "a"; "---"]%string) = (None, [], []).
Proof. vm_compute. reflexivity. Qed.

Example header_needs_final_newline :
  parse_view (tx "---" ++ [nl] ++ tx "description: a" ++ [nl] ++ tx "---")
  = (None, [], []).
Proof. vm_compute. reflexivity. Qed.

Example blank_description_is_empty :
  parse_view (lines ["---"; "description:   "; "---"]%string)
  = (Some (tx "description:   "), [], []).
Proof. vm_compute. reflexivity. Qed.

Example description_runs_over_newlines :
  parse_view (lines ["---"; "description:"; "keywords: [a]"; "---"]%string)
  = (Some (tx "description:" ++ [nl] ++ tx "keywords: [a]"),
     tx "keywords: [a]", [tx "a"]).
Proof. vm_compute. reflexivity. Qed.

Example keywords_lose_quotes_and_take_last_bracket :
  parse_view (lines ["---"; "keywords: ['Auth', " ++ qt "JWT" ++ " , x]] "; "---  "]%string)
  = (Some (tx ("keywords: ['Auth', " ++ qt "JWT" ++ " , x]] ")%string), [],
     [tx "Auth"; tx "JWT"; tx "x]"]).
Proof. vm_compute. reflexivity. Qed.

Example empty_brackets_are_no_keyword_list :
  parse_view (lines ["---"; "keywords: []"; "---"]%string) = (Some (tx "keywords: []"), [], []).
Proof. vm_compute. reflexivity. Qed.

Example carriage_returns_are_white_space :
  parse_view (tx "---" ++ [cr; nl] ++ tx "description: Win" ++ [cr; nl] ++
              tx "---" ++ [cr; nl] ++ tx "body")
  = (Some (tx "description: Win" ++ [cr]), tx "Win", []).
Proof. vm_compute. reflexivity. Qed.

Example string_functions :
  split (tx "  a b" ++ [ascii_of_nat 9] ++ tx "c" ++ [nl]) = [tx "a"; tx "b"; tx "c"] /\
  strip (tx " " ++ [ascii_of_nat 9] ++ tx " x y " ++ [nl]) = tx "x y" /\
  replace "-"%char " "%char (tx "a-b-c") = tx "a b c" /\
  py_in (tx "unit test") (tx "a unit  test") = false /\
  py_in [] [] = true /\
  slice_to (-1) [1; 2; 3; 4]%nat = [1; 2; 3]%nat /\
  slice_to (-9) [1; 2; 3; 4]%nat = [] /\
  slice_to 5 [1; 2]%nat = [1; 2]%nat.
Proof. vm_compute. repeat split; reflexivity. Qed.

(** ** Selection *)

(** Scenario A: the name match and the affinity of agent 02 alone give
    0.7; the skill is selected, in first place. *)
Example payment_scenario :
  0.7 <= Skill.relevance_score payment_skill payment_query (Some (tx "02")) /\
  map (fun p => Skill.name (fst p))
      (SkillLoader.select_skills loader payment_query (Some (tx "02")) 3 0.1) =
  [tx "payment-integration"; tx "debugging"; tx "web-frameworks"].
Proof.
  split.
  - apply Qle_bool_iff. vm_compute. reflexivity.
  - vm_compute. reflexivity.
Qed.

(** Scenario B: a missing or empty skills directory gives an empty catalog
    and an empty selection. *)
Lemma empty_catalog_selects_nothing query agent_id max_skills min_score :
  SkillLoader.select_skills (SkillLoader._load_all_skills None)
    query agent_id max_skills min_score = [] /\
  SkillLoader.select_skills (SkillLoader._load_all_skills (Some []))
    query agent_id max_skills min_score = [].
Proof.
  unfold SkillLoader.select_skills, slice_to. simpl.
  destruct (0 <=? max_skills)%Z; split; apply firstn_nil.
Qed.

Lemma select_skills_spec_witness :
  (0 <= 3)%Z /\
  (Z.of_nat (length (SkillLoader.select_skills loader payment_query
                       (Some (tx "02")) 3 0.1)) <= 3)%Z.
Proof.
  split; [lia|].
  apply (SelectFacts.select_skills_spec loader payment_query (Some (tx "02")) 3 0.1).
  lia.
Defined.

(** A max_skills of -1 is no count: the slice [[:max_skills]] then drops
    the last of the four candidates and returns the other three. *)
Example select_skills_negative_max :
  length (SkillLoader.select_skills loader payment_query (Some (tx "02")) 4 0.1)
    = 4%nat /\
  SkillLoader.select_skills loader payment_query (Some (tx "02")) (-1) 0.1 =
  firstn 3 (SkillLoader.select_skills loader payment_query (Some (tx "02")) 4 0.1).
Proof. split; vm_compute; reflexivity. Qed.

(** ** Scoring *)

Lemma name_match_scores_half_witness :
  py_in (replace "-"%char " "%char (Skill.name payment_skill))
        (lower payment_query) = true /\
  0.5 <= Skill.relevance_score payment_skill payment_query None.
Proof.
  split; [vm_compute; reflexivity|].
  apply ScoreFacts.name_match_scores_half. vm_compute. reflexivity.
Defined.

Lemma empty_query_score_witness :
  Skill.relevance_score payment_skill [] (Some (tx "02")) =
  Skill.score_affinity payment_skill (Some (tx "02"))
    (Skill.score_name payment_skill [] 0).
Proof.
  apply (ScoreFacts.empty_query_score payment_skill (Some (tx "02"))).
  vm_compute. repeat constructor; discriminate.
Defined.

(** C8, as stated, fails for a skill with an empty keyword: the keyword
    list [api, rest,] of the header block parses to three keywords, the last
    of them empty, and the empty keyword occurs in every query.  On the empty
    query the skill scores 0.15 where name match and affinity give 0. *)
Lemma empty_keyword_scores_on_empty_query :
  In api_skill (SkillLoader.values loader) /\
  Skill.keywords api_skill = [tx "api"; tx "rest"; []] /\
  Skill.relevance_score api_skill [] None == 0.15 /\
  Skill.score_affinity api_skill None (Skill.score_name api_skill [] 0) == 0 /\
  ~ (Skill.relevance_score api_skill [] None ==
     Skill.score_affinity api_skill None (Skill.score_name api_skill [] 0)).
Proof.
  split; [vm_compute; tauto|].
  split; [vm_compute; reflexivity|].
  split; [apply Qeq_bool_iff; vm_compute; reflexivity|].
  split; [apply Qeq_bool_iff; vm_compute; reflexivity|].
  intros H. apply Qeq_bool_iff in H. vm_compute in H. discriminate H.
Qed.

(** ** Keywords *)

Lemma derived_keywords_match_spec_witness :
  Skill.explicit_keywords payment_doc = None /\
  Skill.keywords payment_skill =
  derived_keywords_spec (Skill.description payment_skill) payment_doc.
Proof.
  split; [vm_compute; reflexivity|].
  apply (KeywordFacts.derived_keywords_match_spec (tx "payment-integration") payment_doc).
  vm_compute. reflexivity.
Defined.

Lemma derived_keywords_invariant_witness :
  In payment_skill (SkillLoader.values loader) /\
  Skill.explicit_keywords (Skill.content payment_skill) = None /\
  Forall is_lowercase (Skill.keywords payment_skill) /\
  (length (Skill.keywords payment_skill) <= 10)%nat.
Proof.
  assert (Hin : In payment_skill (SkillLoader.values loader))
    by (vm_compute; tauto).
  assert (Hexp : Skill.explicit_keywords (Skill.content payment_skill) = None)
    by (vm_compute; reflexivity).
  split; [exact Hin|]. split; [exact Hexp|].
  exact (KeywordFacts.derived_keywords_invariant (Some skills_dir) payment_skill Hin Hexp).
Defined.

(** C5, as stated, fails for a skill with an explicit keyword list: the
    listed tokens are kept as written, all eleven of them, capitals
    included. *)
Lemma explicit_keywords_break_invariant :
  In frameworks_skill (SkillLoader.values loader) /\
  ~ Forall is_lowercase (Skill.keywords frameworks_skill) /\
  ~ (length (Skill.keywords frameworks_skill) <= 10)%nat.
Proof.
  split; [vm_compute; tauto|]. split.
  - intros H.
    assert (E : Skill.keywords frameworks_skill =
                map tx [ "React"; "Vue"; "Angular"; "Svelte"; "Solid"; "Preact";
                         "Lit"; "Ember"; "Alpine"; "Qwik"; "Astro" ]%string)
      by (vm_compute; reflexivity).
    rewrite E in H. inversion H as [|k ks Hk _]. subst.
    unfold is_lowercase in Hk. vm_compute in Hk. discriminate Hk.
  - assert (E : length (Skill.keywords frameworks_skill) = 11%nat)
      by (vm_compute; reflexivity).
    rewrite E. lia.
Qed.

(** ** The orchestrator *)

Example json_codec :
  Json.loads (tx "[1,]") = None /\
  Json.loads (tx "01") = None /\
  Json.loads (tx " [1] x") = None /\
  Json.loads [] = None /\
  Json.loads (tx " [1, -0, true, null, {}] ") =
    Some (List_ [Int 1; Int 0; Bool true; None_; Dict []]) /\
  Json.loads (Json.dumps (default_state (tx "2026-01-01T00:00:00"))) =
    Some (default_state (tx "2026-01-01T00:00:00")).
Proof. vm_compute. repeat split; reflexivity. Qed.

(** Scenario C: a state file that is not JSON. *)
Example corrupt_state_scenario :
  Json.loads (tx "{not json") = None /\
  load_state runtime corrupt_world =
  (Returned (default_state (tx "2026-01-01T00:00:00.0")), tick corrupt_world).
Proof. split; vm_compute; reflexivity. Qed.

Lemma load_state_falls_back_to_default_witness :
  exists loaded w',
    load_state runtime corrupt_world = (Returned loaded, w') /\
    get loaded (tx "current_phase") = Some (Str (tx "IDLE")).
Proof.
  destruct (OrchestratorFacts.load_state_falls_back_to_default runtime corrupt_world)
    as [loaded [w' [H1 [_ [H2 _]]]]].
  - right. exists (tx "{not json"). split; vm_compute; reflexivity.
  - exists loaded, w'. split; assumption.
Defined.

(** Scenario D: agent 02 resolves, agent 99 does not. *)
Example missing_agent_scenario :
  exists results w',
    execute_pipeline runtime studio build_feature [tx "02"; tx "99"]
      payment_params fresh_world = (Returned results, w') /\
    map StepResult.agent_name (RunResult.agents_executed results) = [tx "Builder"] /\
    map StepResult.skills_used (RunResult.agents_executed results) =
      [[tx "payment-integration"; tx "debugging"; tx "web-frameworks"]] /\
    RunResult.errors results = [tx "Agent 99 not found"] /\
    RunResult.success results = false.
Proof.
  destruct (execute_pipeline runtime studio build_feature [tx "02"; tx "99"]
              payment_params fresh_world) as [[results|e] w'] eqn:E;
    vm_compute in E; [|discriminate E].
  exists results, w'. inversion E; subst. repeat split; reflexivity.
Qed.

Lemma execute_pipeline_partial_failure_witness :
  is_dict (state fresh_world) = true /\
  exists results w',
    execute_pipeline runtime studio build_feature [tx "02"; tx "99"]
      payment_params fresh_world = (Returned results, w') /\
    length (RunResult.agents_executed results) = 1%nat /\
    RunResult.errors results = [tx "Agent " ++ tx "99" ++ tx " not found"] /\
    RunResult.success results = false.
Proof.
  split; [reflexivity|].
  destruct (OrchestratorFacts.execute_pipeline_partial_failure runtime studio
              build_feature [tx "02"; tx "99"] payment_params fresh_world)
    as [Hprops Hreturns].
  destruct (Hreturns eq_refl) as [results [w' Hrun]].
  exists results, w'. split; [exact Hrun|].
  destruct (Hprops results w' Hrun) as [_ [_ [_ Hd]]].
  apply (Hd (tx "02") (tx "99")); reflexivity.
Defined.

Lemma refused_approval_cancels_witness :
  should_ask_for_approval (intent_parser studio)
    (fst (parse (intent_parser studio) payment_query)) = true /\
  stdin fresh_world = [tx " N "] /\
  lower (strip (tx " N ")) <> tx "y" /\
  process_user_request runtime studio payment_query fresh_world =
  (Returned cancelled, set_stdin [] fresh_world).
Proof.
  assert (Hno : lower (strip (tx " N ")) <> tx "y")
    by (vm_compute; discriminate).
  split; [reflexivity|]. split; [reflexivity|]. split; [exact Hno|].
  apply (OrchestratorFacts.refused_approval_cancels runtime studio payment_query
           fresh_world (tx " N ") []); [reflexivity|reflexivity|exact Hno].
Defined.

End ScenarioFacts.

(** * Further properties: strings *)

Module StringFacts.

Lemma str_eqb_eq (a b : str) : str_eqb a b = true <-> a = b.
Proof.
  unfold str_eqb. destruct (list_eq_dec ascii_dec a b); split; auto; discriminate.
Qed.

Lemma str_eqb_refl (a : str) : str_eqb a a = true.
Proof. apply str_eqb_eq. reflexivity. Qed.

Lemma str_eqb_neq (a b : str) : a <> b -> str_eqb a b = false.
Proof.
  intros H. destruct (str_eqb a b) eqn:E; auto.
  apply str_eqb_eq in E. contradiction.
Qed.

Lemma lower_char_idem c : lower_char (lower_char c) = lower_char c.
Proof.
  destruct c as [[] [] [] [] [] [] [] []]; reflexivity.
Qed.

Lemma lower_idem s : lower (lower s) = lower s.
Proof.
  unfold lower. rewrite map_map. apply map_ext. apply lower_char_idem.
Qed.

Lemma startswith_app p r : startswith p (p ++ r) = true.
Proof.
  induction p as [|a p IH]; simpl; auto.
  rewrite Ascii.eqb_refl. exact IH.
Qed.

Lemma startswith_prefix p s :
  startswith p s = true <-> exists r, s = p ++ r.
Proof.
  split.
  - revert s. induction p as [|a p IH]; intros s H.
    + exists s. reflexivity.
    + destruct s as [|b s]; [discriminate|]. simpl in H.
      apply andb_true_iff in H as [E H]. apply Ascii.eqb_eq in E. subst b.
      destruct (IH s H) as [r ->]. exists r. reflexivity.
  - intros [r ->]. apply startswith_app.
Qed.

(** [t in s] holds exactly when [s] is [a ++ t ++ b] for some [a] and [b]. *)
Lemma py_in_infix t s :
  py_in t s = true <-> exists a b, s = a ++ t ++ b.
Proof.
  split.
  - induction s as [|c s IH]; cbn [py_in]; intros H.
    + rewrite orb_false_r in H. apply startswith_prefix in H as [r Hr].
      exists [], r. exact Hr.
    + apply orb_true_iff in H as [H|H].
      * apply startswith_prefix in H as [r Hr]. exists [], r. exact Hr.
      * destruct (IH H) as [a [b ->]]. exists (c :: a), b. reflexivity.
  - intros [a [b ->]]. induction a as [|c a IH].
    + simpl app. destruct (t ++ b) eqn:E; cbn [py_in]; rewrite <- E;
        rewrite startswith_app; reflexivity.
    + change ((c :: a) ++ t ++ b) with (c :: (a ++ t ++ b)). cbn [py_in].
      rewrite IH. apply orb_true_r.
Qed.

Lemma py_in_length t s : py_in t s = true -> (length t <= length s)%nat.
Proof.
  intros H. apply py_in_infix in H as [a [b ->]].
  rewrite !length_app. lia.
Qed.

Lemma py_in_middle t a b : py_in t (a ++ t ++ b) = true.
Proof. apply py_in_infix. exists a, b. reflexivity. Qed.

(** Whatever occurs in a lowercased text is itself lowercase. *)
Lemma py_in_lower_is_lowercase k s :
  py_in k (lower s) = true -> lower k = k.
Proof.
  intros H. apply py_in_infix in H as [a [b H]].
  unfold lower in H.
  apply map_eq_app in H as [s1 [s2 [_ [_ H]]]].
  apply map_eq_app in H as [s3 [s4 [_ [H _]]]].
  rewrite <- H. apply lower_idem.
Qed.

Lemma not_lowercase_not_found k s :
  lower k <> k -> py_in k (lower s) = false.
Proof.
  intros H. destruct (py_in k (lower s)) eqn:E; auto.
  apply py_in_lower_is_lowercase in E. contradiction.
Qed.

Lemma replace_keeps_case name :
  lower (replace "-"%char " "%char name) = replace "-"%char " "%char name ->
  lower name = name.
Proof.
  induction name as [|c name IH]; simpl; auto.
  intros H. injection H as Hc Hn. f_equal; auto.
  destruct (Ascii.eqb c "-"%char) eqn:E; [|exact Hc].
  apply Ascii.eqb_eq in E. subst c. reflexivity.
Qed.

End StringFacts.

(** * Further properties: scoring *)

Module ScoreMore.
Import Skill Spec Analysis Coverage StringFacts.

(** X1: the letter case of the query is ignored: a query and its
    lowercase form get the same score from every skill and the same
    selection from every catalog. *)
Theorem query_case_is_ignored :
  forall (self : SkillLoader.t) (skill : Skill.t) (query : str)
         (agent_id : option str) (max_skills : Z) (min_score : Q),
    relevance_score skill (lower query) agent_id =
    relevance_score skill query agent_id /\
    SkillLoader.select_skills self (lower query) agent_id max_skills min_score =
    SkillLoader.select_skills self query agent_id max_skills min_score.
Proof.
  intros self skill query agent_id max_skills min_score.
  assert (H : forall sk, relevance_score sk (lower query) agent_id =
                         relevance_score sk query agent_id).
  { intros sk. unfold relevance_score. rewrite lower_idem. reflexivity. }
  split; [apply H|].
  unfold SkillLoader.select_skills. do 2 f_equal.
  apply flat_map_ext. intros sk. cbv zeta. rewrite H. reflexivity.
Qed.

Lemma score_keywords_no_match self q score :
  Forall (fun k => py_in k q = false) (keywords self) ->
  score_keywords self q score = score.
Proof.
  unfold score_keywords. generalize (keywords self) as ks.
  intros ks H. revert score.
  induction H as [|k ks Hk _ IH]; intros score; cbn [fold_left]; auto.
  rewrite Hk. apply IH.
Qed.

(** X2: a keyword written with a capital letter never matches, the query
    being lowercased before the comparison: a skill all of whose keywords
    have a capital scores as if it had no keywords. *)
Theorem capitalised_keywords_never_match :
  forall (skill : Skill.t) (query : str) (agent_id : option str),
    Forall (fun k => lower k <> k) (keywords skill) ->
    relevance_score skill query agent_id =
    relevance_score (without_keywords skill) query agent_id.
Proof.
  intros skill query agent_id H.
  unfold relevance_score. cbv zeta.
  rewrite (score_keywords_no_match skill).
  - reflexivity.
  - eapply Forall_impl; [|exact H].
    intros k Hk. apply not_lowercase_not_found. exact Hk.
Qed.

(** X3: a skill whose name has a capital letter never earns the name
    match, whatever the query. *)
Theorem capitalised_name_never_matches :
  forall (skill : Skill.t) (query : str) (score : Q),
    lower (name skill) <> name skill ->
    py_in (replace "-"%char " "%char (name skill)) (lower query) = false /\
    score_name skill (lower query) score = score.
Proof.
  intros skill query score H.
  assert (E : py_in (replace "-"%char " "%char (name skill)) (lower query) = false).
  { apply not_lowercase_not_found. intros Hl. apply H.
    apply replace_keeps_case. exact Hl. }
  split; [exact E|]. unfold score_name. rewrite E. reflexivity.
Qed.

Lemma Qmin_mono (x y : Q) : x <= y -> Qmin x 1 <= Qmin y 1.
Proof.
  intros H.
  destruct (Q.min_spec x 1) as [[Hx Ex]|[Hx Ex]];
    destruct (Q.min_spec y 1) as [[Hy Ey]|[Hy Ey]]; lra.
Qed.

Lemma listing_agent_is_named (skill : Skill.t) (agent_id : str) :
  mem (name skill) (dict_get affinities agent_id []) = true ->
  is_nil agent_id = false.
Proof.
  intros H. destruct agent_id as [|c rest]; [|reflexivity].
  vm_compute in H. discriminate H.
Qed.

Lemma Qmin_equal (x y : Q) : x == y -> Qmin x 1 == Qmin y 1.
Proof.
  intros H.
  destruct (Q.min_spec x 1) as [[Hx Ex]|[Hx Ex]];
    destruct (Q.min_spec y 1) as [[Hy Ey]|[Hy Ey]]; lra.
Qed.

(** X4: the boost of an agent id is bounded by that of an agent whose
    entry in the affinity table lists the skill.  All such agents give the
    skill one and the same score, and no agent id, nor leaving the agent id
    out, gives it a higher one. *)
Theorem listing_agents_score_highest :
  forall (skill : Skill.t) (query listed : str) (agent_id : option str),
    mem (name skill) (dict_get affinities listed []) = true ->
    relevance_score skill query agent_id <=
    relevance_score skill query (Some listed) /\
    (forall other,
        mem (name skill) (dict_get affinities other []) = true ->
        relevance_score skill query (Some other) =
        relevance_score skill query (Some listed)).
Proof.
  intros skill query listed agent_id H.
  pose proof (listing_agent_is_named skill listed H) as Hl.
  split.
  - rewrite !ScoreFacts.relevance_score_raw. apply Qmin_mono.
    unfold raw_score, score_affinity, _get_agent_affinity.
    rewrite H, Hl. cbn [negb].
    destruct agent_id as [a|]; [|lra].
    destruct (negb (is_nil a)); [|lra].
    destruct (mem (name skill) (dict_get affinities a [])); lra.
  - intros other Ho.
    pose proof (listing_agent_is_named skill other Ho) as Hn.
    unfold relevance_score, score_affinity, _get_agent_affinity.
    rewrite H, Ho, Hl, Hn. reflexivity.
Qed.

(** X5: an agent whose entry in the affinity table does not list the
    skill, or who has no entry, leaves the score as it is without an agent
    id. *)
Theorem unlisted_agent_gives_no_boost :
  forall (skill : Skill.t) (query agent_id : str),
    mem (name skill) (dict_get affinities agent_id []) = false ->
    relevance_score skill query (Some agent_id) ==
    relevance_score skill query None.
Proof.
  intros skill query agent_id H.
  rewrite !ScoreFacts.relevance_score_raw. apply Qmin_equal.
  unfold raw_score, score_affinity, _get_agent_affinity. rewrite H.
  destruct (negb (is_nil agent_id)); lra.
Qed.

Lemma mem_In w l : mem w l = true -> In w l.
Proof.
  unfold mem. rewrite existsb_exists. intros [x [Hx E]].
  apply str_eqb_eq in E. subst x. exact Hx.
Qed.

Lemma inter_length a b :
  NoDup a -> (length (inter a b) <= length b)%nat.
Proof.
  intros Ha. apply NoDup_incl_length.
  - unfold inter. apply NoDup_filter. exact Ha.
  - intros w Hw. unfold inter in Hw. apply filter_In in Hw as [_ Hw].
    apply mem_In. exact Hw.
Qed.

(** X6: the description section never lowers the score, and leaves it as
    it is when the description is empty or shares no word with the query.
    The words shared are never more than the distinct words of the query,
    so the ratio by which the section scales its weight lies between 0
    and 1. *)
Theorem description_overlap_is_a_fraction :
  forall (skill : Skill.t) (query_lower : str) (score : Q),
    let desc_words := to_set (split (lower (description skill))) in
    let query_words := to_set (split query_lower) in
    let common := inter desc_words query_words in
    score <= score_description skill query_lower score /\
    (length common <= length query_words)%nat /\
    0 <= flen common / inject_Z (Z.max (Z.of_nat (length query_words)) 1) /\
    flen common / inject_Z (Z.max (Z.of_nat (length query_words)) 1) <= 1 /\
    (description skill = [] \/ common = [] ->
     score_description skill query_lower score = score).
Proof.
  intros skill q score dw qw common.
  assert (Hlen : (length common <= length qw)%nat).
  { apply inter_length. apply NoDup_nodup. }
  split; [apply ScoreFacts.score_description_ge|].
  split; [exact Hlen|]. split; [|split].
  - apply ScoreFacts.overlap_ratio_nonneg.
  - apply Qle_shift_div_r.
    + change 0 with (inject_Z 0). rewrite <- Zlt_Qlt. lia.
    + rewrite Qmult_1_l. unfold flen. rewrite <- Zle_Qle. lia.
  - intros [Hd | Hc]; unfold score_description.
    + rewrite Hd. reflexivity.
    + destruct (negb (is_nil (description skill))); [|reflexivity].
      cbv zeta. fold dw qw. fold common. rewrite Hc. reflexivity.
Qed.

(** The keyword section is the step [score += 0.15] taken once for every
    entry of the keyword list that occurs in the query. *)
Lemma score_keywords_steps (skill : Skill.t) (q : str) (score : Q) :
  score_keywords skill q score =
  Nat.iter (keyword_hits skill q) (fun s => s + 0.15) score.
Proof.
  unfold score_keywords, keyword_hits. revert score.
  induction (keywords skill) as [|k ks IH]; intros score;
    cbn [fold_left filter]; [reflexivity|].
  rewrite IH. destruct (py_in k q); [|reflexivity].
  cbn [length].
  exact (eq_sym (Nat.iter_succ_r (length (filter (fun k => py_in k q) ks))
                   Q (fun s : Q => s + 0.15) score)).
Qed.

Lemma steps_never_lower (n m : nat) (score : Q) :
  (n <= m)%nat ->
  Nat.iter n (fun s => s + 0.15) score <= Nat.iter m (fun s => s + 0.15) score.
Proof.
  induction 1 as [|m Hle IH]; [apply Qle_refl|].
  eapply Qle_trans; [exact IH|].
  change (Nat.iter m (fun s => s + 0.15) score <=
          Nat.iter m (fun s => s + 0.15) score + 0.15).
  generalize (Nat.iter m (fun s => s + 0.15) score). intros x. lra.
Qed.

(** X7: the keyword section counts hits and nothing else.  Its result
    depends on the keyword list and the query only through the number of
    entries of the list that occur in the lowercased query, an entry listed
    twice counting twice: without a hit the score stays as it is, as many
    hits from the same score give the same result, and more hits never give
    a lower one. *)
Theorem keyword_section_counts_hits :
  forall (skill other : Skill.t) (query_lower other_query : str) (score : Q),
    (keyword_hits skill query_lower = 0%nat ->
     score_keywords skill query_lower score = score) /\
    (keyword_hits skill query_lower = keyword_hits other other_query ->
     score_keywords skill query_lower score =
     score_keywords other other_query score) /\
    ((keyword_hits skill query_lower <= keyword_hits other other_query)%nat ->
     score_keywords skill query_lower score <=
     score_keywords other other_query score).
Proof.
  intros skill other q q' score. rewrite !score_keywords_steps.
  split; [|split].
  - intros ->. reflexivity.
  - intros ->. reflexivity.
  - apply steps_never_lower.
Qed.

End ScoreMore.

(** * Further properties: the skill parser *)

Module ParserMore.
Import Skill Spec Analysis Coverage StringFacts.

Lemma tech_keywords_nodup : NoDup tech_keywords.
Proof.
  assert (H : nodup (list_eq_dec ascii_dec) tech_keywords = tech_keywords)
    by (vm_compute; reflexivity).
  rewrite <- H. apply NoDup_nodup.
Qed.

Lemma NoDup_firstn {A} n (l : list A) : NoDup l -> NoDup (firstn n l).
Proof.
  intros H. rewrite <- (firstn_skipn n l) in H.
  apply NoDup_app_remove_r in H. exact H.
Qed.

Lemma firstn_short {A} n (l : list A) :
  (length (firstn n l) < n)%nat -> firstn n l = l.
Proof.
  intros H. apply firstn_all2. rewrite length_firstn in H. lia.
Qed.

(** X8: the keywords derived from a text are distinct vocabulary terms,
    each of which occurs in the lowercased text; and when fewer than ten
    are derived, none was cut: every vocabulary term that occurs in the text
    is among them. *)
Theorem derived_keywords_sound_and_complete :
  forall (text : str),
    NoDup (_extract_keywords text) /\
    (forall k, In k (_extract_keywords text) ->
               In k tech_keywords /\ py_in k (lower text) = true) /\
    ((length (_extract_keywords text) < 10)%nat ->
     forall k, In k tech_keywords -> py_in k (lower text) = true ->
               In k (_extract_keywords text)).
Proof.
  intros text. rewrite KeywordFacts.extract_keywords_firstn.
  split; [|split].
  - apply NoDup_firstn, NoDup_filter, tech_keywords_nodup.
  - intros k Hk. apply In_firstn in Hk. apply filter_In in Hk. exact Hk.
  - intros Hlen k Hk Hin. rewrite (firstn_short _ _ Hlen).
    apply filter_In. split; assumption.
Qed.

Lemma explicit_keywords_need_delimiter content :
  startswith (tx "---") content = false -> explicit_keywords content = None.
Proof.
  intros H. unfold explicit_keywords.
  rewrite (KeywordFacts.frontmatter_needs_delimiter _ H). reflexivity.
Qed.

Lemma parsed_description_needs_delimiter content :
  startswith (tx "---") content = false -> parsed_description content = [].
Proof.
  intros H. unfold parsed_description.
  rewrite (KeywordFacts.frontmatter_needs_delimiter _ H). reflexivity.
Qed.

(** X9: a document that does not open with the three dashes has no header
    block: the description stays empty and the keywords are those derived
    from its first 500 characters alone. *)
Theorem headerless_document :
  forall (nm content : str),
    startswith (tx "---") content = false ->
    description (_parse_skill_file nm content) = [] /\
    keywords (_parse_skill_file nm content) = _extract_keywords (firstn 500 content).
Proof.
  intros nm content H.
  pose proof (parsed_description_needs_delimiter content H) as Hd.
  split; [exact Hd|].
  rewrite (KeywordFacts.keywords_when_derived nm content
             (explicit_keywords_need_delimiter content H)).
  rewrite Hd, !KeywordFacts.extract_keywords_firstn.
  apply (f_equal (firstn 10)).
  apply filter_ext_in. intros k Hk.
  pose proof (KeywordFacts.tech_keywords_seam_safe k Hk) as Hs.
  apply andb_true_iff in Hs as [_ Hs].
  change ([] ++ tx " " ++ firstn 500 content) with (space :: firstn 500 content).
  apply (KeywordFacts.py_in_skip_space k (lower (firstn 500 content)) Hs).
Qed.

(** ** What the matcher captures *)

Lemma rests_split cl s r :
  In r (rests cl s) ->
  exists u, s = u ++ r /\ Forall (fun c => in_class cl c = true) u.
Proof.
  revert r. induction s as [|a s IH]; intros r H.
  - destruct H as [<-|[]]. exists []. split; [reflexivity|constructor].
  - cbn [rests] in H. destruct H as [<-|H].
    + exists []. split; [reflexivity|constructor].
    + destruct (in_class cl a) eqn:E; [|contradiction].
      destruct (IH r H) as [u [-> Hu]].
      exists (a :: u). split; [reflexivity|constructor; assumption].
Qed.

Lemma find_map_some {A B} (f : A -> option B) l b :
  find_map f l = Some b -> exists a, In a l /\ f a = Some b.
Proof.
  induction l as [|a l IH]; simpl; [discriminate|].
  destruct (f a) as [b'|] eqn:E.
  - intros H. injection H as ->. exists a. auto.
  - intros H. destruct (IH H) as [a' [Ha' Hf]]. exists a'. auto.
Qed.

Lemma match_here_group p s g :
  match_here p s = Some g ->
  exists r1 r2, In r2 (run (grp p) r1) /\ g = firstn (length r1 - length r2) r1.
Proof.
  unfold match_here. intros H.
  apply find_map_some in H as [r1 [_ H]].
  apply find_map_some in H as [r2 [H2 H]].
  exists r1, r2. split; [exact H2|].
  destruct (run (post p) r2); [discriminate|]. injection H as <-. reflexivity.
Qed.

Lemma search_some p s g :
  search p s = Some g -> exists s', match_here p s' = Some g.
Proof.
  induction s as [|a s IH]; cbn [search].
  - destruct (match_here p []) eqn:E; [|discriminate].
    intros H. injection H as <-. exists []. exact E.
  - destruct (match_here p (a :: s)) eqn:E.
    + intros H. injection H as <-. exists (a :: s). exact E.
    + exact IH.
Qed.

Lemma plus_group_chars cl r1 r2 :
  In r2 (run (Plus cl) r1) ->
  Forall (fun c => in_class cl c = true) (firstn (length r1 - length r2) r1).
Proof.
  cbn [run]. intros H. apply in_rev in H.
  assert (H' : In r2 (rests cl r1)).
  { destruct (rests cl r1); [contradiction|]. right. exact H. }
  destruct (rests_split cl r1 r2 H') as [u [-> Hu]].
  rewrite length_app, Nat.add_sub.
  rewrite firstn_app, firstn_all, Nat.sub_diag, firstn_O, app_nil_r. exact Hu.
Qed.

(** ** [strip] *)

Lemma dropwhile_idem P s : dropwhile P (dropwhile P s) = dropwhile P s.
Proof.
  induction s as [|c s IH]; simpl; auto.
  destruct (P c) eqn:E; [exact IH|]. simpl. rewrite E. reflexivity.
Qed.

Lemma dropwhile_suffix P s : exists a, s = a ++ dropwhile P s.
Proof.
  induction s as [|c s IH]; simpl.
  - exists []. reflexivity.
  - destruct (P c).
    + destruct IH as [a Ha]. exists (c :: a). simpl. f_equal. exact Ha.
    + exists []. reflexivity.
Qed.

Lemma dropwhile_head P s c r : dropwhile P s = c :: r -> P c = false.
Proof.
  induction s as [|d s IH]; simpl; [discriminate|].
  destruct (P d) eqn:E; [exact IH|].
  intros H. injection H as -> _. exact E.
Qed.

Lemma dropwhile_Forall (Q : ascii -> Prop) P s :
  Forall Q s -> Forall Q (dropwhile P s).
Proof.
  intros H. destruct (dropwhile_suffix P s) as [a Ha].
  rewrite Ha in H. apply Forall_app in H as [_ H]. exact H.
Qed.

Lemma strip_with_Forall (Q : ascii -> Prop) P s :
  Forall Q s -> Forall Q (strip_with P s).
Proof.
  intros H. unfold strip_with.
  apply Forall_rev, dropwhile_Forall, Forall_rev, dropwhile_Forall. exact H.
Qed.

Lemma strip_with_idem P s : strip_with P (strip_with P s) = strip_with P s.
Proof.
  unfold strip_with.
  set (u := dropwhile P s). set (v := rev (dropwhile P (rev u))).
  assert (Hv : dropwhile P v = v).
  { destruct v as [|c v'] eqn:Ev; [reflexivity|].
    destruct (dropwhile_suffix P (rev u)) as [a Ha].
    assert (Hu : u = v ++ rev a).
    { rewrite <- (rev_involutive u), Ha, rev_app_distr. reflexivity. }
    rewrite Ev in Hu. simpl in Hu.
    pose proof (dropwhile_head P s c (v' ++ rev a) Hu) as Hc.
    simpl. rewrite Hc. reflexivity. }
  rewrite Hv. unfold v at 1. rewrite rev_involutive, dropwhile_idem.
  reflexivity.
Qed.

Lemma description_group_has_no_newline fm g :
  search description_re fm = Some g -> Forall (fun c => c <> nl) g.
Proof.
  intros H. apply search_some in H as [s' H].
  apply match_here_group in H as [r1 [r2 [H2 ->]]].
  cbn [grp description_re] in H2.
  eapply Forall_impl; [|exact (plus_group_chars NotNewline r1 r2 H2)].
  intros c Hc E. subst c. discriminate Hc.
Qed.

(** X10: the description of a parsed skill is one trimmed line: it holds
    no newline, and stripping it again changes nothing. *)
Theorem description_is_one_trimmed_line :
  forall (nm content : str),
    ~ In nl (description (_parse_skill_file nm content)) /\
    strip (description (_parse_skill_file nm content)) =
    description (_parse_skill_file nm content).
Proof.
  intros nm content.
  change (description (_parse_skill_file nm content))
    with (parsed_description content).
  unfold parsed_description.
  destruct (frontmatter content) as [fm|]; [|split; [intros []|reflexivity]].
  destruct (search description_re fm) as [g|] eqn:E;
    [|split; [intros []|reflexivity]].
  split.
  - pose proof (strip_with_Forall (fun c => c <> nl) isspace g
                  (description_group_has_no_newline fm g E)) as H.
    rewrite Forall_forall in H. intros Hin. exact (H nl Hin eq_refl).
  - apply strip_with_idem.
Qed.

End ParserMore.

(** * Further properties: the catalog *)

Module CatalogMore.
Import Skill SkillLoader Spec Analysis Coverage StringFacts.

Lemma lookup_dict_set {V} (d : list (str * V)) k v k' :
  lookup (dict_set d k v) k' = if str_eqb k k' then Some v else lookup d k'.
Proof.
  induction d as [|[k0 w] d IH]; simpl.
  - reflexivity.
  - destruct (str_eqb k0 k) eqn:E0; simpl.
    + apply str_eqb_eq in E0. subst k0.
      destruct (str_eqb k k'); reflexivity.
    + rewrite IH. destruct (str_eqb k0 k') eqn:E1; [|reflexivity].
      apply str_eqb_eq in E1. subst k'.
      rewrite (str_eqb_neq k k0); [reflexivity|].
      intros ->. rewrite str_eqb_refl in E0. discriminate.
Qed.

Lemma dict_set_keys {V} (d : list (str * V)) k v k' :
  In k' (map fst (dict_set d k v)) <-> k' = k \/ In k' (map fst d).
Proof.
  induction d as [|[k0 w] d IH]; simpl.
  - intuition.
  - destruct (str_eqb k0 k) eqn:E0; simpl.
    + apply str_eqb_eq in E0. subst k0. intuition.
    + rewrite IH. intuition.
Qed.

Lemma dict_set_NoDup {V} (d : list (str * V)) k v :
  NoDup (map fst d) -> NoDup (map fst (dict_set d k v)).
Proof.
  induction d as [|[k0 w] d IH]; simpl; intros H.
  - constructor; [intros []|constructor].
  - inversion H as [|? ? Hk0 Hd]; subst.
    destruct (str_eqb k0 k) eqn:E0; simpl.
    + constructor; assumption.
    + constructor; [|apply IH; exact Hd].
      intros Hin. apply dict_set_keys in Hin as [->|Hin]; [|contradiction].
      rewrite str_eqb_refl in E0. discriminate.
Qed.

Lemma dict_set_Forall {V} (P : str * V -> Prop) (d : list (str * V)) k v :
  Forall P d -> P (k, v) -> Forall P (dict_set d k v).
Proof.
  intros Hd Hv. induction d as [|[k0 w] d IH]; simpl.
  - constructor; [exact Hv|constructor].
  - inversion Hd; subst. destruct (str_eqb k0 k) eqn:E0.
    + apply str_eqb_eq in E0. subst k0. constructor; assumption.
    + constructor; auto.
Qed.

Lemma init_name nm file : Skill.name (Skill.init nm file) = nm.
Proof. destruct file; reflexivity. Qed.

Lemma load_is_fold entries :
  skills (_load_all_skills (Some entries)) = fold_left register entries [].
Proof. reflexivity. Qed.

Lemma register_invariant skills e :
  NoDup (map fst skills) /\ Forall (fun kv => fst kv = Skill.name (snd kv)) skills ->
  NoDup (map fst (register skills e)) /\
  Forall (fun kv => fst kv = Skill.name (snd kv)) (register skills e).
Proof.
  intros [H1 H2]. unfold register.
  destruct (is_dir e && _); [|split; assumption].
  cbv zeta. split.
  - apply dict_set_NoDup. exact H1.
  - apply dict_set_Forall; [exact H2|reflexivity].
Qed.

Lemma catalog_invariant skills_dir :
  NoDup (map fst (skills (_load_all_skills skills_dir))) /\
  Forall (fun kv => fst kv = Skill.name (snd kv))
         (skills (_load_all_skills skills_dir)).
Proof.
  destruct skills_dir as [entries|];
    [|split; constructor].
  rewrite load_is_fold.
  assert (H : NoDup (map fst (@nil (str * Skill.t))) /\
              Forall (fun kv => fst kv = Skill.name (snd kv)) (@nil (str * Skill.t)))
    by (split; constructor).
  revert H. generalize (@nil (str * Skill.t)) as d.
  induction entries as [|e entries IH]; intros d H; [exact H|].
  cbn [fold_left]. apply IH, register_invariant, H.
Qed.

(** X11: within a catalog no two skills have the same name, every skill is
    stored under its own name, and [list_all_skills] lists the skills' names
    and descriptions in catalog order. *)
Theorem catalog_names_are_unique :
  forall (skills_dir : option (list dir_entry)),
    NoDup (map Skill.name (values (_load_all_skills skills_dir))) /\
    Forall (fun kv => fst kv = Skill.name (snd kv))
           (skills (_load_all_skills skills_dir)) /\
    list_all_skills (_load_all_skills skills_dir) =
    map (fun skill => (Skill.name skill, Skill.description skill))
        (values (_load_all_skills skills_dir)).
Proof.
  intros skills_dir.
  destruct (catalog_invariant skills_dir) as [Hn Hk].
  assert (E : map fst (skills (_load_all_skills skills_dir)) =
              map Skill.name (values (_load_all_skills skills_dir))).
  { unfold values. rewrite map_map. apply map_ext_in. intros kv Hkv.
    rewrite Forall_forall in Hk. apply Hk. exact Hkv. }
  split; [rewrite <- E; exact Hn|]. split; [exact Hk|].
  unfold list_all_skills, values. rewrite map_map.
  apply map_ext_in. intros kv Hkv. rewrite Forall_forall in Hk.
  rewrite (Hk kv Hkv). reflexivity.
Qed.

Lemma lookup_fold_right entries nm :
  lookup (fold_right (fun e acc => register acc e) [] entries) nm =
  option_map (fun e => Skill.init (entry_name e) (skill_md e))
    (find (fun e => is_skill_dir e && str_eqb (entry_name e) nm) entries).
Proof.
  induction entries as [|e entries IH]; [reflexivity|].
  cbn [fold_right find]. unfold register at 1, is_skill_dir at 1.
  destruct (is_dir e && _); cbn [andb].
  - cbv zeta. rewrite lookup_dict_set, init_name.
    destruct (str_eqb (entry_name e) nm); [reflexivity|exact IH].
  - exact IH.
Qed.

Lemma lookup_In {V} (d : list (str * V)) k v :
  lookup d k = Some v -> In (k, v) d.
Proof.
  induction d as [|[k0 w] d IH]; simpl; [discriminate|].
  destruct (str_eqb k0 k) eqn:E.
  - apply str_eqb_eq in E. subst k0. intros H. injection H as ->. auto.
  - auto.
Qed.

(** X12: [get_skill] after loading: a name gives the skill parsed from the
    last entry of the listing that is a directory with a SKILL.md file and
    bears that name, and nothing when there is no such entry or no directory
    to list; a skill that is found bears the name asked for and is one of
    the catalog's. *)
Theorem get_skill_after_load :
  forall (entries : list dir_entry) (nm : str),
    get_skill (_load_all_skills (Some entries)) nm =
      option_map (fun e => Skill.init (entry_name e) (skill_md e))
                 (last_skill_entry entries nm) /\
    get_skill (_load_all_skills None) nm = None /\
    (forall skill,
        get_skill (_load_all_skills (Some entries)) nm = Some skill ->
        Skill.name skill = nm /\
        In skill (values (_load_all_skills (Some entries)))).
Proof.
  intros entries nm. split; [|split; [reflexivity|]].
  - unfold get_skill, last_skill_entry. rewrite load_is_fold.
    rewrite <- fold_left_rev_right. apply lookup_fold_right.
  - intros skill H. unfold get_skill in H. apply lookup_In in H.
    destruct (catalog_invariant (Some entries)) as [_ Hk].
    rewrite Forall_forall in Hk. split.
    + symmetry. apply (Hk (nm, skill) H).
    + unfold values. apply in_map_iff. exists (nm, skill). auto.
Qed.

End CatalogMore.

(** * Further properties: selection *)

Module SelectMore.
Import Skill SkillLoader Spec Analysis Coverage StringFacts.

Lemma select_skills_unfold self query agent_id max_skills min_score :
  select_skills self query agent_id max_skills min_score =
  slice_to max_skills (sort_desc (scored self query agent_id min_score)).
Proof. reflexivity. Qed.

Lemma slice_to_firstn {A} (n : Z) (l : list A) :
  exists k, slice_to n l = firstn k l.
Proof. unfold slice_to. destruct (0 <=? n)%Z; eexists; reflexivity. Qed.

Lemma insert_desc_length {A} (x : A * Q) l :
  length (insert_desc x l) = S (length l).
Proof.
  induction l as [|y l IH]; simpl; [reflexivity|].
  destruct (Qle_bool (snd y) (snd x)); simpl; [reflexivity|].
  rewrite IH. reflexivity.
Qed.

Lemma sort_desc_length {A} (l : list (A * Q)) :
  length (sort_desc l) = length l.
Proof.
  induction l as [|x l IH]; simpl; [reflexivity|].
  rewrite insert_desc_length, IH. reflexivity.
Qed.

Lemma scored_length self query agent_id min_score :
  length (scored self query agent_id min_score) =
  candidates self query agent_id min_score.
Proof.
  unfold scored, candidates. induction (values self) as [|skill l IH].
  - reflexivity.
  - cbn [flat_map filter]. rewrite length_app, IH. cbv zeta.
    destruct (Qle_bool min_score _); reflexivity.
Qed.

Lemma scored_candidate self query agent_id min_score skill :
  In skill (values self) ->
  min_score <= relevance_score skill query agent_id ->
  In (skill, relevance_score skill query agent_id)
     (scored self query agent_id min_score).
Proof.
  intros Hin Hmin. unfold scored. apply in_flat_map.
  exists skill. split; [exact Hin|]. cbv zeta.
  apply Qle_bool_iff in Hmin. rewrite Hmin. left. reflexivity.
Qed.

Lemma sorted_app_order {A} (R : A -> A -> Prop) l1 l2 :
  StronglySorted R (l1 ++ l2) ->
  forall x y, In x l1 -> In y l2 -> R x y.
Proof.
  induction l1 as [|a l1 IH]; intros H x y Hx Hy; [contradiction|].
  simpl in H. inversion H as [|? ? Hs Ha]; subst.
  destruct Hx as [<-|Hx].
  - rewrite Forall_forall in Ha. apply Ha. apply in_or_app. right. exact Hy.
  - exact (IH Hs x y Hx Hy).
Qed.

(** X13: the selection keeps the best: a skill of the catalog that reaches
    min_score is returned with its score, or else scores no higher than
    every entry returned. *)
Theorem select_skills_keeps_the_best :
  forall (self : SkillLoader.t) (query : str) (agent_id : option str)
         (max_skills : Z) (min_score : Q) (skill : Skill.t),
    In skill (values self) ->
    min_score <= relevance_score skill query agent_id ->
    In (skill, relevance_score skill query agent_id)
       (select_skills self query agent_id max_skills min_score) \/
    Forall (fun p => relevance_score skill query agent_id <= snd p)
           (select_skills self query agent_id max_skills min_score).
Proof.
  intros self query agent_id max_skills min_score skill Hin Hmin.
  rewrite select_skills_unfold.
  set (ranking := sort_desc (scored self query agent_id min_score)).
  destruct (slice_to_firstn max_skills ranking) as [k ->].
  assert (Hp : In (skill, relevance_score skill query agent_id) ranking).
  { apply SelectFacts.sort_desc_In. apply scored_candidate; assumption. }
  rewrite <- (firstn_skipn k ranking) in Hp.
  apply in_app_or in Hp as [Hp|Hp]; [left; exact Hp|right].
  apply Forall_forall. intros q Hq.
  assert (Hs : StronglySorted by_score_desc (firstn k ranking ++ skipn k ranking)).
  { rewrite firstn_skipn. apply SelectFacts.sort_desc_sorted. }
  exact (sorted_app_order by_score_desc _ _ Hs q _ Hq Hp).
Qed.

(** X14: the size of a selection.  With n the number of catalog skills
    that reach min_score, a max_skills that is not negative gives
    min(max_skills, n) entries, so that none is dropped once max_skills
    reaches n, and a negative max_skills gives max(0, n + max_skills). *)
Theorem select_skills_size :
  forall (self : SkillLoader.t) (query : str) (agent_id : option str)
         (max_skills : Z) (min_score : Q),
    Z.of_nat (length (select_skills self query agent_id max_skills min_score)) =
    if (0 <=? max_skills)%Z
    then Z.min max_skills (Z.of_nat (candidates self query agent_id min_score))
    else Z.max 0 (Z.of_nat (candidates self query agent_id min_score) + max_skills).
Proof.
  intros self query agent_id max_skills min_score.
  rewrite select_skills_unfold, <- scored_length. unfold slice_to.
  rewrite <- (sort_desc_length (scored self query agent_id min_score)).
  destruct (0 <=? max_skills)%Z eqn:E; rewrite length_firstn; lia.
Qed.

(** X15: asking for fewer skills gives the first entries of what asking
    for more gives. *)
Theorem select_skills_prefix :
  forall (self : SkillLoader.t) (query : str) (agent_id : option str)
         (fewer more : Z) (min_score : Q),
    (0 <= fewer <= more)%Z ->
    select_skills self query agent_id fewer min_score =
    firstn (Z.to_nat fewer) (select_skills self query agent_id more min_score).
Proof.
  intros self query agent_id fewer more min_score [H1 H2].
  rewrite !select_skills_unfold. unfold slice_to.
  destruct (0 <=? fewer)%Z eqn:E1; [|lia].
  destruct (0 <=? more)%Z eqn:E2; [|lia].
  rewrite firstn_firstn. f_equal. lia.
Qed.

End SelectMore.

(** * Further properties: the assembled contexts *)

Module ContextMore.
Import Py Orchestrator Spec Analysis Coverage StringFacts.

Lemma enumerate_app {A} (l1 l2 : list A) i :
  enumerate i (l1 ++ l2) =
  enumerate i l1 ++ enumerate (i + Z.of_nat (length l1)) l2.
Proof.
  revert i. induction l1 as [|a l1 IH]; intros i.
  - simpl. rewrite Z.add_0_r. reflexivity.
  - cbn [app enumerate length]. rewrite IH. do 3 f_equal. lia.
Qed.

Lemma blocks_fold (l : list (Z * Skill.t)) context :
  fold_left
    (fun context (p : Z * Skill.t) =>
       let context :=
         context ++ tx "## Skill " ++ str_of_int (fst p) ++ tx ": " ++
         Skill.name (snd p) ++ [nl; nl] in
       let context := context ++ Skill.content (snd p) in
       context ++ [nl; nl] ++ tx "---" ++ [nl; nl])
    l context =
  context ++ flat_map (fun p => skill_block (fst p) (snd p)) l.
Proof.
  revert context. induction l as [|p l IH]; intros context.
  - simpl. rewrite app_nil_r. reflexivity.
  - cbn [fold_left flat_map]. rewrite IH. cbv zeta. unfold skill_block.
    rewrite <- !app_assoc. reflexivity.
Qed.

Lemma build_skills_context_closed skill rest :
  SkillLoader.build_skills_context (skill :: rest) =
  skills_banner ++
  flat_map (fun p => skill_block (fst p) (snd p)) (enumerate 1 (skill :: rest)).
Proof.
  unfold SkillLoader.build_skills_context. cbn [is_nil]. cbv zeta.
  rewrite blocks_fold. reflexivity.
Qed.

(** X16: [build_skills_context] gives the empty string for no skill;
    otherwise the text opens with the two banner lines, and the skill in
    position k, counted from 1, appears in it as a block made of the
    heading with k and the skill's name, the skill's content as it is, and a
    rule. *)
Theorem build_skills_context_blocks :
  SkillLoader.build_skills_context [] = [] /\
  (forall skill rest,
      startswith skills_banner
        (SkillLoader.build_skills_context (skill :: rest)) = true) /\
  (forall before skill after,
      py_in (skill_block (1 + Z.of_nat (length before)) skill)
            (SkillLoader.build_skills_context (before ++ skill :: after)) = true).
Proof.
  split; [reflexivity|]. split.
  - intros skill rest. rewrite build_skills_context_closed.
    apply startswith_app.
  - intros before skill after.
    assert (E : exists s0 rest0, before ++ skill :: after = s0 :: rest0).
    { destruct before; simpl; eauto. }
    destruct E as [s0 [rest0 E]].
    rewrite E, build_skills_context_closed, <- E.
    rewrite enumerate_app. cbn [enumerate].
    rewrite flat_map_app. cbn [flat_map fst snd].
    apply py_in_infix.
    exists (skills_banner ++
            flat_map (fun p => skill_block (fst p) (snd p)) (enumerate 1 before)),
           (flat_map (fun p => skill_block (fst p) (snd p))
                     (enumerate (1 + Z.of_nat (length before) + 1) after)).
    rewrite <- app_assoc. reflexivity.
Qed.

Lemma join_contains sep parts p :
  In p parts -> py_in p (join sep parts) = true.
Proof.
  induction parts as [|w l IH]; [contradiction|].
  intros [->|H].
  - apply py_in_infix. destruct l as [|w' l'].
    + exists [], []. simpl. rewrite app_nil_r. reflexivity.
    + exists [], (sep ++ join sep (w' :: l')). reflexivity.
  - destruct l as [|w' l']; [contradiction|].
    apply IH in H. apply py_in_infix in H as [a [b H]].
    apply py_in_infix. exists (w ++ sep ++ a), b.
    change (join sep (w :: w' :: l')) with (w ++ sep ++ join sep (w' :: l')).
    rewrite H, <- !app_assoc. reflexivity.
Qed.

Lemma context_has_agent_instructions self agent query params selected previous :
  py_in (Agent.instructions agent)
        (_build_agent_context self agent query params selected previous) = true.
Proof.
  unfold _build_agent_context. cbv zeta.
  apply join_contains. apply in_or_app. right. apply in_or_app. left.
  right. left. reflexivity.
Qed.

(** X17: the context built for an agent holds the orchestration
    instructions, the agent's instructions, the content of every selected
    skill, the line with the query, and one line with name and status for
    every earlier step. *)
Theorem agent_context_contents :
  forall (self : Orchestrator.t) (agent : Agent.t) (query : str)
         (params : Params) (selected_skills : list Skill.t)
         (previous_results : list StepResult.t),
    py_in (orchestrator_instructions self)
          (_build_agent_context self agent query params selected_skills
             previous_results) = true /\
    py_in (Agent.instructions agent)
          (_build_agent_context self agent query params selected_skills
             previous_results) = true /\
    py_in (tx "Query: " ++ query)
          (_build_agent_context self agent query params selected_skills
             previous_results) = true /\
    (forall skill, In skill selected_skills ->
        py_in (Skill.content skill)
              (_build_agent_context self agent query params selected_skills
                 previous_results) = true) /\
    (forall r, In r previous_results ->
        py_in (tx "- " ++ StepResult.agent_name r ++ tx ": " ++ StepResult.status r)
              (_build_agent_context self agent query params selected_skills
                 previous_results) = true).
Proof.
  intros self agent query params selected previous.
  split; [|split; [|split; [|split]]];
    try (unfold _build_agent_context; cbv zeta).
  - apply join_contains. apply in_or_app. left. right. left. reflexivity.
  - exact (context_has_agent_instructions self agent query params selected previous).
  - apply join_contains. do 3 (apply in_or_app; right). apply in_or_app. left.
    right. left. reflexivity.
  - intros skill Hs. apply join_contains.
    do 2 (apply in_or_app; right). apply in_or_app. left.
    destruct selected as [|s0 l0]; [contradiction|]. cbn [is_nil negb].
    right. apply in_flat_map. exists skill. split; [exact Hs|].
    right. left. reflexivity.
  - intros r Hr. apply join_contains.
    do 4 (apply in_or_app; right).
    destruct previous as [|r0 l0]; [contradiction|]. cbn [is_nil negb].
    right. apply in_or_app. left. apply in_flat_map.
    exists r. split; [exact Hr|]. left. reflexivity.
Qed.

End ContextMore.

(** * Further properties: state and runs *)

Module RunMore.
Import Py Orchestrator Spec Analysis Coverage StringFacts.

Lemma lookup_dict_set_same {V} (d : list (str * V)) k v :
  lookup (dict_set d k v) k = Some v.
Proof. rewrite CatalogMore.lookup_dict_set, str_eqb_refl. reflexivity. Qed.

Lemma lookup_dict_set_other {V} (d : list (str * V)) k v k' :
  k <> k' -> lookup (dict_set d k v) k' = lookup d k'.
Proof.
  intros H. rewrite CatalogMore.lookup_dict_set, (str_eqb_neq k k' H).
  reflexivity.
Qed.

Ltac distinct_keys :=
  let E := fresh "E" in intros E; vm_compute in E; discriminate E.

Lemma filter_partition_length {A} (f : A -> bool) (l : list A) :
  (length (filter f l) + length (filter (fun x => negb (f x)) l) = length l)%nat.
Proof.
  induction l as [|a l IH]; simpl; [reflexivity|].
  destruct (f a); simpl; lia.
Qed.

Section Runs.
Variable env : Env.
Variable self : Orchestrator.t.

(** ** [save_state] and [load_state] *)

Lemma save_state_exact w d :
  state w = Dict d -> save_state env w = (Returned tt, saved env w d).
Proof.
  intros H. unfold save_state, bind, now_isoformat.
  rewrite (OrchestratorFacts.state_setitem_dict _ _ (tick w) d H).
  reflexivity.
Qed.

Lemma save_state_raises w :
  is_dict (state w) = false -> save_state env w = (Raised TypeError, tick w).
Proof.
  intros H. unfold save_state, bind, now_isoformat.
  rewrite (OrchestratorFacts.state_setitem_raises _ _ (tick w) H).
  reflexivity.
Qed.

(** X18: [save_state] with a state dictionary stamps it with the clock
    reading, leaves its other keys alone and writes the stamped state to the
    state file; the session log and the console are not touched.  When the
    state is not a dictionary it raises TypeError and writes nothing. *)
Theorem save_state_effects :
  forall (w : World),
    (forall d, state w = Dict d ->
       exists w',
         save_state env w = (Returned tt, w') /\
         get (state w') (tx "timestamp") = Some (Str (isoformat env (ticks w))) /\
         (forall key, key <> tx "timestamp" ->
                      get (state w') key = get (state w) key) /\
         state_file w' = Some (json_dump env (state w')) /\
         session_file w' = session_file w /\
         stdin w' = stdin w) /\
    (is_dict (state w) = false ->
     exists w',
       save_state env w = (Raised TypeError, w') /\
       state_file w' = state_file w /\ state w' = state w).
Proof.
  intros w. split.
  - intros d H. exists (saved env w d).
    split; [apply save_state_exact; exact H|].
    split; [apply lookup_dict_set_same|].
    split; [|repeat split; reflexivity].
    intros key Hk. rewrite H. cbn [saved state get]. unfold stamped.
    apply lookup_dict_set_other. intros E. apply Hk. symmetry. exact E.
  - intros H. exists (tick w). split; [apply save_state_raises; exact H|].
    split; reflexivity.
Qed.

(** X19: what [save_state] has written, [load_state] reads back: when
    the codec decodes the saved text to the state it encodes, loading after
    saving returns the saved state and changes nothing. *)
Theorem load_after_save :
  forall (w w' : World),
    save_state env w = (Returned tt, w') ->
    json_load env (json_dump env (state w')) = Some (state w') ->
    load_state env w' = (Returned (state w'), w').
Proof.
  intros w w' Hsave Hcodec.
  destruct (is_dict (state w)) eqn:Hd.
  - destruct (state w) as [| | | | | |d] eqn:Ew; try discriminate Hd.
    rewrite (save_state_exact w d Ew) in Hsave. injection Hsave as <-.
    cbn [saved state] in Hcodec.
    cbv [load_state bind gets ret try_except read_state_file].
    cbn [saved state_file]. cbv beta iota. cbn [saved state_file].
    rewrite Hcodec. reflexivity.
  - rewrite (save_state_raises w Hd) in Hsave. discriminate Hsave.
Qed.

(** X20: a state file that holds valid JSON other than an object is
    loaded as it is; with such a state every run of the pipeline raises
    TypeError at its first statement, before anything is written. *)
Theorem non_object_state_breaks_runs :
  forall (w : World) (text : str) (v : pyval),
    state_file w = Some text ->
    json_load env text = Some v ->
    is_dict v = false ->
    load_state env w = (Returned v, w) /\
    init_state env w = (Returned tt, set_state v w) /\
    (forall task_type agent_ids params,
        execute_pipeline env self task_type agent_ids params (set_state v w) =
        (Raised TypeError, set_state v w)).
Proof.
  intros w text v Hf Hj Hv.
  assert (Hl : load_state env w = (Returned v, w)).
  { cbv [load_state bind gets ret try_except read_state_file].
    rewrite Hf. cbv beta iota. rewrite Hf, Hj. reflexivity. }
  split; [exact Hl|]. split.
  - unfold init_state, bind, modify. rewrite Hl. reflexivity.
  - intros task_type agent_ids params.
    apply OrchestratorFacts.execute_pipeline_needs_state_dict. exact Hv.
Qed.

(** ** The agent loop, exactly *)

Lemma log_agent_execution_exact agent_id query skills w :
  _log_agent_execution env agent_id query skills w =
  (Returned tt,
   set_session_file (logged (session_file w) (log_entry env agent_id query skills)) w).
Proof.
  unfold _log_agent_execution, modify, logged, log_entry, session_header.
  destruct (session_file w); reflexivity.
Qed.

Lemma selection_length agent_id query :
  (length (selection self query agent_id) <= 3)%nat.
Proof.
  unfold selection. rewrite SelectMore.select_skills_unfold.
  unfold slice_to. cbn [Z.leb Z.compare]. apply firstn_le_length.
Qed.

Lemma session_after_cons query agent_id rest file :
  session_after env self query (agent_id :: rest) file =
  session_after env self query rest
    (if registered self agent_id
     then logged file (log_entry env agent_id query (selection self query agent_id))
     else file).
Proof. reflexivity. Qed.

Lemma pipeline_loop_exact query params agent_ids :
  forall results w,
  exists results',
    pipeline_loop env self query params agent_ids results w =
    (Returned results',
     set_session_file (session_after env self query agent_ids (session_file w)) w) /\
    RunResult.task_type results' = RunResult.task_type results /\
    RunResult.query results' = RunResult.query results /\
    (Forall (well_formed_step self query) (RunResult.agents_executed results) ->
     Forall (well_formed_step self query) (RunResult.agents_executed results')).
Proof.
  induction agent_ids as [|agent_id rest IH]; intros results w.
  - exists results. split; [destruct w; reflexivity|]. auto.
  - cbn [pipeline_loop]. rewrite session_after_cons.
    destruct (lookup (agents self) agent_id) as [agent|] eqn:E.
    + assert (Hreg : registered self agent_id = true)
        by (unfold registered; rewrite E; reflexivity).
      rewrite Hreg.
      unfold bind. fold (selection self query agent_id).
      rewrite log_agent_execution_exact.
      match goal with
      | |- context [pipeline_loop _ _ _ _ rest ?r ?w1] =>
          destruct (IH r w1) as [results' [Hrun [Ht [Hq Hw]]]]
      end.
      exists results'. split; [rewrite Hrun; reflexivity|].
      split; [exact Ht|]. split; [exact Hq|].
      intros Hprev. apply Hw. cbn [record_step RunResult.agents_executed].
      apply Forall_app. split; [exact Hprev|].
      constructor; [|constructor].
      unfold well_formed_step. cbn [StepResult.agent_id StepResult.agent_name
        StepResult.status StepResult.skills_used StepResult.context_size].
      split; [|split; [reflexivity|split; [reflexivity|]]].
      * exists agent. split; [exact E|]. split; [reflexivity|].
        apply Nat2Z.inj_le. apply py_in_length.
        apply ContextMore.context_has_agent_instructions.
      * rewrite length_map. apply selection_length.
    + assert (Hreg : registered self agent_id = false)
        by (unfold registered; rewrite E; reflexivity).
      rewrite Hreg.
      destruct (IH (record_error (not_found_message agent_id) results) w)
        as [results' [Hrun [Ht [Hq Hw]]]].
      exists results'. split; [exact Hrun|].
      split; [exact Ht|]. split; [exact Hq|]. exact Hw.
Qed.

(** ** A whole run, exactly *)

Lemma execute_pipeline_exact task_type agent_ids params w d :
  state w = Dict d ->
  exists results,
    execute_pipeline env self task_type agent_ids params w =
    (Returned results, final_world env self task_type agent_ids params w d) /\
    RunResult.task_type results = value task_type /\
    RunResult.query results = query_of params /\
    RunResult.errors results =
      map not_found_message (filter (unregistered self) agent_ids) /\
    map StepResult.agent_id (RunResult.agents_executed results) =
      filter (registered self) agent_ids /\
    Forall (well_formed_step self (query_of params))
           (RunResult.agents_executed results).
Proof.
  intros Ew. unfold execute_pipeline.
  unfold bind at 1. rewrite (OrchestratorFacts.state_setitem_dict _ _ w d Ew).
  unfold bind at 1. erewrite OrchestratorFacts.state_setitem_dict by reflexivity.
  unfold bind at 1. erewrite save_state_exact by reflexivity.
  cbv zeta. fold (query_of params). fold (task_of task_type params).
  unfold bind at 1.
  match goal with
  | |- context [pipeline_loop env self ?q params agent_ids ?r ?w1] =>
      destruct (pipeline_loop_exact q params agent_ids r w1)
        as [results [Hrun [Ht [Hq Hw]]]];
      destruct (OrchestratorFacts.pipeline_loop_spec env self q params agent_ids r w1)
        as [results0 [w0 [Hrun0 [_ [_ [He [Ha _]]]]]]]
  end.
  rewrite Hrun in Hrun0. injection Hrun0 as <- _.
  rewrite Hrun.
  unfold bind at 1. erewrite OrchestratorFacts.state_setitem_dict by reflexivity.
  unfold bind at 1. erewrite save_state_exact by reflexivity.
  unfold ret.
  exists results. split; [reflexivity|].
  split; [exact Ht|]. split; [exact Hq|].
  split; [exact He|]. split; [exact Ha|].
  apply Hw. constructor.
Qed.

(** ** What a run leaves behind *)

Lemma session_after_some query agent_ids :
  forall text, exists suffix,
    session_after env self query agent_ids (Some text) = Some (text ++ suffix).
Proof.
  induction agent_ids as [|agent_id rest IH]; intros text.
  - exists []. rewrite app_nil_r. reflexivity.
  - rewrite session_after_cons. destruct (registered self agent_id).
    + destruct (IH (text ++ log_entry env agent_id query
                                (selection self query agent_id)))
        as [suffix Hs].
      exists (log_entry env agent_id query (selection self query agent_id)
              ++ suffix).
      rewrite app_assoc. exact Hs.
    + apply IH.
Qed.

Lemma session_after_untouched query agent_ids file :
  forallb (unregistered self) agent_ids = true ->
  session_after env self query agent_ids file = file.
Proof.
  induction agent_ids as [|agent_id rest IH]; intros H; [reflexivity|].
  cbn [forallb] in H. apply andb_true_iff in H as [H1 H2].
  rewrite session_after_cons. unfold unregistered in H1.
  apply negb_true_iff in H1. rewrite H1. apply IH. exact H2.
Qed.

Lemma session_after_created query agent_ids :
  existsb (registered self) agent_ids = true ->
  exists rest,
    session_after env self query agent_ids None = Some (session_header ++ rest).
Proof.
  induction agent_ids as [|agent_id ids IH]; intros H; [discriminate|].
  cbn [existsb] in H. rewrite session_after_cons.
  destruct (registered self agent_id).
  - destruct (session_after_some query ids
                (session_header ++ log_entry env agent_id query
                                     (selection self query agent_id)))
      as [suffix Hs].
    exists (log_entry env agent_id query (selection self query agent_id)
            ++ suffix).
    rewrite app_assoc. exact Hs.
  - apply IH. exact H.
Qed.

(** X21: a run that returns has recorded itself in the state: the phase
    is "PIPELINE:" followed by the task type, the active task is the
    description (or the printed task type), [last_pipeline] holds the task
    type, the agent ids and, as its time stamp, the working directory; every
    other key of the state but the time stamp is as it was; and the state
    file holds the state as it is at the end.  The console is not read and
    the clock is read twice. *)
Theorem run_records_its_state :
  forall (task_type : TaskType) (agent_ids : list str) (params : Params)
         (w : World),
    is_dict (state w) = true ->
    exists results w',
      execute_pipeline env self task_type agent_ids params w = (Returned results, w') /\
      get (state w') (tx "current_phase") =
        Some (Str (tx "PIPELINE:" ++ value task_type)) /\
      get (state w') (tx "active_task") = Some (Str (task_of task_type params)) /\
      get (state w') (tx "last_pipeline") =
        Some (Dict [ (tx "task_type", Str (value task_type));
                     (tx "agents", List_ (map Str agent_ids));
                     (tx "timestamp", Str (cwd env)) ]) /\
      get (state w') (tx "timestamp") = Some (Str (isoformat env (S (ticks w)))) /\
      (forall key,
          ~ In key [ tx "current_phase"; tx "active_task"; tx "last_pipeline";
                     tx "timestamp" ] ->
          get (state w') key = get (state w) key) /\
      state_file w' = Some (json_dump env (state w')) /\
      stdin w' = stdin w /\
      ticks w' = S (S (ticks w)).
Proof.
  intros task_type agent_ids params w Hd.
  destruct (state w) as [| | | | | |d] eqn:Ew; try discriminate Hd.
  destruct (execute_pipeline_exact task_type agent_ids params w d Ew)
    as [results [Hrun _]].
  exists results, (final_world env self task_type agent_ids params w d).
  split; [exact Hrun|].
  cbn [final_world state state_file stdin ticks get].
  unfold final_state, stamped. cbv zeta.
  split; [|split; [|split; [|split; [|split; [|repeat split; reflexivity]]]]].
  - repeat (rewrite lookup_dict_set_other by distinct_keys).
    apply lookup_dict_set_same.
  - repeat (rewrite lookup_dict_set_other by distinct_keys).
    apply lookup_dict_set_same.
  - repeat (rewrite lookup_dict_set_other by distinct_keys).
    apply lookup_dict_set_same.
  - apply lookup_dict_set_same.
  - intros key Hk.
    assert (H1 : tx "current_phase" <> key)
      by (intros E; apply Hk; rewrite <- E; left; reflexivity).
    assert (H2 : tx "active_task" <> key)
      by (intros E; apply Hk; rewrite <- E; right; left; reflexivity).
    assert (H3 : tx "last_pipeline" <> key)
      by (intros E; apply Hk; rewrite <- E; right; right; left; reflexivity).
    assert (H4 : tx "timestamp" <> key)
      by (intros E; apply Hk; rewrite <- E; right; right; right; left; reflexivity).
    rewrite (lookup_dict_set_other _ _ _ _ H4), (lookup_dict_set_other _ _ _ _ H3),
      (lookup_dict_set_other _ _ _ _ H4), (lookup_dict_set_other _ _ _ _ H2),
      (lookup_dict_set_other _ _ _ _ H1).
    reflexivity.
Qed.

(** X22: a run that returns accounts for every agent id once: the step
    results and the errors together are as many as the agent ids; and the
    result repeats the task type and the query of the run. *)
Theorem run_accounts_for_every_agent :
  forall (task_type : TaskType) (agent_ids : list str) (params : Params)
         (w : World),
    is_dict (state w) = true ->
    exists results w',
      execute_pipeline env self task_type agent_ids params w = (Returned results, w') /\
      (length (RunResult.agents_executed results) +
       length (RunResult.errors results) = length agent_ids)%nat /\
      RunResult.task_type results = value task_type /\
      RunResult.query results =
        match description params with Some d => d | None => [] end.
Proof.
  intros task_type agent_ids params w Hd.
  destruct (state w) as [| | | | | |d] eqn:Ew; try discriminate Hd.
  destruct (execute_pipeline_exact task_type agent_ids params w d Ew)
    as [results [Hrun [Ht [Hq [He [Ha _]]]]]].
  exists results, (final_world env self task_type agent_ids params w d).
  split; [exact Hrun|]. split; [|split; [exact Ht|exact Hq]].
  rewrite <- (length_map StepResult.agent_id), Ha, He, length_map.
  apply filter_partition_length.
Qed.

(** X23: every step result of a run stands for an agent of the table: it
    bears that agent's name, the status "simulated" and the names of the
    skills selected for the agent id and the query, at most three; and its
    context size is at least the length of the agent's instructions. *)
Theorem run_steps_are_well_formed :
  forall (task_type : TaskType) (agent_ids : list str) (params : Params)
         (w : World),
    is_dict (state w) = true ->
    exists results w',
      execute_pipeline env self task_type agent_ids params w = (Returned results, w') /\
      Forall (well_formed_step self (query_of params))
             (RunResult.agents_executed results).
Proof.
  intros task_type agent_ids params w Hd.
  destruct (state w) as [| | | | | |d] eqn:Ew; try discriminate Hd.
  destruct (execute_pipeline_exact task_type agent_ids params w d Ew)
    as [results [Hrun [_ [_ [_ [_ Hw]]]]]].
  exists results, (final_world env self task_type agent_ids params w d).
  split; [exact Hrun|exact Hw].
Qed.

(** X24: a run only ever appends to the session log: the text that was
    there stays in front; when no agent id resolves the log is not touched
    (nor created); and a log that the run creates opens with the header
    line. *)
Theorem run_appends_to_the_session_log :
  forall (task_type : TaskType) (agent_ids : list str) (params : Params)
         (w : World),
    is_dict (state w) = true ->
    exists results w',
      execute_pipeline env self task_type agent_ids params w = (Returned results, w') /\
      (forall text, session_file w = Some text ->
                    exists suffix, session_file w' = Some (text ++ suffix)) /\
      (forallb (unregistered self) agent_ids = true ->
       session_file w' = session_file w) /\
      (session_file w = None ->
       existsb (registered self) agent_ids = true ->
       exists rest, session_file w' = Some (session_header ++ rest)).
Proof.
  intros task_type agent_ids params w Hd.
  destruct (state w) as [| | | | | |d] eqn:Ew; try discriminate Hd.
  destruct (execute_pipeline_exact task_type agent_ids params w d Ew)
    as [results [Hrun _]].
  exists results, (final_world env self task_type agent_ids params w d).
  split; [exact Hrun|]. cbn [final_world session_file].
  split; [|split].
  - intros text Ht. rewrite Ht. apply session_after_some.
  - apply session_after_untouched.
  - intros Hn He. rewrite Hn. apply session_after_created. exact He.
Qed.

(** X25: after a run that returns, [get_status] reports the phase and the
    task of that run, the number of agents and of skills, and the time of
    the last save. *)
Theorem status_after_run :
  forall (task_type : TaskType) (agent_ids : list str) (params : Params)
         (w : World),
    is_dict (state w) = true ->
    exists results w',
      execute_pipeline env self task_type agent_ids params w = (Returned results, w') /\
      get_status self (state w') =
      Some (Dict
        [ (tx "phase", Str (tx "PIPELINE:" ++ value task_type));
          (tx "task", Str (task_of task_type params));
          (tx "agents_registered", Int (Z.of_nat (length (agents self))));
          (tx "skills_available",
           Int (Z.of_nat (length (SkillLoader.skills (skill_loader self)))));
          (tx "last_update", Str (isoformat env (S (ticks w)))) ]).
Proof.
  intros task_type agent_ids params w Hd.
  destruct (state w) as [| | | | | |d] eqn:Ew; try discriminate Hd.
  destruct (execute_pipeline_exact task_type agent_ids params w d Ew)
    as [results [Hrun _]].
  exists results, (final_world env self task_type agent_ids params w d).
  split; [exact Hrun|].
  cbn [final_world state get_status].
  unfold final_state, stamped. cbv zeta.
  rewrite lookup_dict_set_same.
  repeat (rewrite lookup_dict_set_other by distinct_keys).
  rewrite lookup_dict_set_same.
  repeat (rewrite lookup_dict_set_other by distinct_keys).
  rewrite lookup_dict_set_same.
  reflexivity.
Qed.

(** X26: a request that passes the approval gate, because no approval is
    needed or because the answer is "y" in any letter case and with any
    white space around, gives what [execute_pipeline] gives for the parsed
    task type, the parser's pipeline and the parsed parameters, as a
    dictionary. *)
Theorem approved_request_runs_the_pipeline :
  forall (user_input : str) (w w0 : World),
    gate_passed self user_input w w0 ->
    process_user_request env self user_input w =
    match execute_pipeline env self
            (fst (parse (intent_parser self) user_input))
            (get_agent_pipeline (intent_parser self)
               (fst (parse (intent_parser self) user_input))
               (is_existing_project self))
            (snd (parse (intent_parser self) user_input)) w0
    with
    | (Returned results, w') => (Returned (to_dict results), w')
    | (Raised e, w') => (Raised e, w')
    end.
Proof.
  intros user_input w w0 H.
  unfold process_user_request, process_user_request_with, gate_passed in *.
  destruct (parse (intent_parser self) user_input) as [task_type params].
  cbn [fst snd] in *.
  destruct H as [[Hask ->] | [Hask [answer [rest [Hin [Hy ->]]]]]];
    rewrite Hask; unfold bind, ret, input.
  - destruct (execute_pipeline _ _ _ _ _ _) as [[r|e] w']; reflexivity.
  - rewrite Hin, Hy, str_eqb_refl.
    destruct (execute_pipeline _ _ _ _ _ _) as [[r|e] w']; reflexivity.
Qed.

End Runs.

(** X27: [register_agent] makes the agent id resolve to the agent given,
    replacing an earlier agent of that id, and changes no other id nor the
    rest of the orchestrator. *)
Theorem register_agent_resolves :
  forall (self : Orchestrator.t) (agent_id : str) (agent : Agent.t) (other : str),
    lookup (agents (register_agent self agent_id agent)) agent_id = Some agent /\
    registered (register_agent self agent_id agent) agent_id = true /\
    (other <> agent_id ->
     lookup (agents (register_agent self agent_id agent)) other =
     lookup (agents self) other) /\
    skill_loader (register_agent self agent_id agent) = skill_loader self /\
    intent_parser (register_agent self agent_id agent) = intent_parser self.
Proof.
  intros self agent_id agent other.
  assert (H : lookup (agents (register_agent self agent_id agent)) agent_id =
              Some agent) by apply lookup_dict_set_same.
  split; [exact H|]. split; [unfold registered; rewrite H; reflexivity|].
  split; [|split; reflexivity].
  intros Ho. cbn [register_agent agents].
  apply lookup_dict_set_other. intros E. apply Ho. symmetry. exact E.
Qed.

(** X28: [log_action] appends its entry to the session log and touches
    neither the state nor the state file.  A log that it creates does not
    open with the header line, and the entries that [_log_agent_execution]
    writes later follow without one. *)
Theorem log_action_appends :
  forall (strftime : nat -> str) (agent_id action result : str) (w : World),
    exists w',
      log_action strftime agent_id action result w = (Returned tt, w') /\
      state w' = state w /\
      state_file w' = state_file w /\
      (forall text, session_file w = Some text ->
                    exists entry, session_file w' = Some (text ++ entry)) /\
      (session_file w = None ->
       exists text,
         session_file w' = Some text /\
         startswith session_header text = false /\
         forall env id query skills,
           exists w'',
             _log_agent_execution env id query skills w' = (Returned tt, w'') /\
             session_file w'' = Some (text ++ log_entry env id query skills)).
Proof.
  intros strftime agent_id action result w.
  eexists. split; [reflexivity|].
  cbn [tick set_session_file state state_file session_file].
  split; [reflexivity|]. split; [reflexivity|]. split.
  - intros text Ht. rewrite Ht. eexists. reflexivity.
  - intros Hn. rewrite Hn. eexists. split; [reflexivity|].
    split; [reflexivity|].
    intros env id query skills. eexists.
    rewrite log_agent_execution_exact. split; reflexivity.
Qed.

End RunMore.

(** * The further properties on the scenario data *)

Module CoverageFacts.
Import Py Orchestrator Spec Scenario Coverage.

(** ** Scoring *)

Lemma capitalised_keywords_never_match_witness :
  Forall (fun k => lower k <> k) (Skill.keywords shouting_skill) /\
  Skill.relevance_score shouting_skill payment_query None =
  Skill.relevance_score (without_keywords shouting_skill) payment_query None.
Proof.
  assert (H : Forall (fun k => lower k <> k) (Skill.keywords shouting_skill)).
  { apply Forall_cons; [|apply Forall_cons; [|apply Forall_nil]];
      intros E; vm_compute in E; discriminate E. }
  split; [exact H|].
  exact (ScoreMore.capitalised_keywords_never_match shouting_skill payment_query
           None H).
Defined.

Lemma capitalised_name_never_matches_witness :
  lower (Skill.name shouting_skill) <> Skill.name shouting_skill /\
  Skill.score_name shouting_skill (lower payment_query) 0 = 0.
Proof.
  assert (H : lower (Skill.name shouting_skill) <> Skill.name shouting_skill)
    by (intros E; vm_compute in E; discriminate E).
  split; [exact H|].
  exact (proj2 (ScoreMore.capitalised_name_never_matches shouting_skill
                  payment_query 0 H)).
Defined.

Lemma listing_agents_score_highest_witness :
  mem (Skill.name payment_skill) (dict_get Skill.affinities (tx "02") []) = true /\
  Skill.relevance_score payment_skill payment_query (Some (tx "01")) <=
  Skill.relevance_score payment_skill payment_query (Some (tx "02")).
Proof.
  split; [vm_compute; reflexivity|].
  apply (ScoreMore.listing_agents_score_highest payment_skill payment_query
           (tx "02") (Some (tx "01"))).
  vm_compute. reflexivity.
Defined.

Lemma unlisted_agent_gives_no_boost_witness :
  mem (Skill.name payment_skill) (dict_get Skill.affinities (tx "01") []) = false /\
  Skill.relevance_score payment_skill payment_query (Some (tx "01")) ==
  Skill.relevance_score payment_skill payment_query None.
Proof.
  split; [vm_compute; reflexivity|].
  apply (ScoreMore.unlisted_agent_gives_no_boost payment_skill payment_query
           (tx "01")).
  vm_compute. reflexivity.
Defined.

(** ** Parsing *)

Lemma headerless_document_witness :
  startswith (tx "---") (tx "# Stripe payments with React") = false /\
  Skill.description
    (Skill._parse_skill_file (tx "notes") (tx "# Stripe payments with React")) = [] /\
  Skill.keywords
    (Skill._parse_skill_file (tx "notes") (tx "# Stripe payments with React")) =
  Skill._extract_keywords (firstn 500 (tx "# Stripe payments with React")).
Proof.
  split; [vm_compute; reflexivity|].
  apply (ParserMore.headerless_document (tx "notes")
           (tx "# Stripe payments with React")).
  vm_compute. reflexivity.
Defined.

(** ** Selection *)

Lemma select_skills_keeps_the_best_witness :
  In payment_skill (SkillLoader.values loader) /\
  0.1 <= Skill.relevance_score payment_skill payment_query (Some (tx "02")) /\
  (In (payment_skill,
       Skill.relevance_score payment_skill payment_query (Some (tx "02")))
      (SkillLoader.select_skills loader payment_query (Some (tx "02")) 1 0.1) \/
   Forall (fun p =>
             Skill.relevance_score payment_skill payment_query (Some (tx "02"))
             <= snd p)
          (SkillLoader.select_skills loader payment_query (Some (tx "02")) 1 0.1)).
Proof.
  assert (Hin : In payment_skill (SkillLoader.values loader))
    by (vm_compute; tauto).
  assert (Hmin : 0.1 <= Skill.relevance_score payment_skill payment_query
                          (Some (tx "02")))
    by (apply Qle_bool_imp_le; vm_compute; reflexivity).
  split; [exact Hin|]. split; [exact Hmin|].
  exact (SelectMore.select_skills_keeps_the_best loader payment_query
           (Some (tx "02")) 1 0.1 payment_skill Hin Hmin).
Defined.

Lemma select_skills_prefix_witness :
  (0 <= 1 <= 3)%Z /\
  SkillLoader.select_skills loader payment_query (Some (tx "02")) 1 0.1 =
  firstn (Z.to_nat 1)
    (SkillLoader.select_skills loader payment_query (Some (tx "02")) 3 0.1).
Proof.
  split; [lia|].
  apply (SelectMore.select_skills_prefix loader payment_query (Some (tx "02"))
           1 3 0.1).
  lia.
Defined.

(** ** State *)

Lemma load_after_save_witness :
  save_state runtime fresh_world = (Returned tt, saved_world) /\
  json_load runtime (json_dump runtime (state saved_world)) =
    Some (state saved_world) /\
  load_state runtime saved_world = (Returned (state saved_world), saved_world).
Proof.
  assert (Hs : save_state runtime fresh_world = (Returned tt, saved_world))
    by (vm_compute; reflexivity).
  assert (Hj : json_load runtime (json_dump runtime (state saved_world)) =
               Some (state saved_world))
    by (vm_compute; reflexivity).
  split; [exact Hs|]. split; [exact Hj|].
  exact (RunMore.load_after_save runtime fresh_world saved_world Hs Hj).
Defined.

Lemma non_object_state_breaks_runs_witness :
  state_file array_world = Some (tx "[]") /\
  json_load runtime (tx "[]") = Some (List_ []) /\
  load_state runtime array_world = (Returned (List_ []), array_world) /\
  execute_pipeline runtime studio build_feature [tx "02"; tx "99"] payment_params
    (set_state (List_ []) array_world) =
  (Raised TypeError, set_state (List_ []) array_world).
Proof.
  assert (Hj : json_load runtime (tx "[]") = Some (List_ []))
    by (vm_compute; reflexivity).
  split; [reflexivity|]. split; [exact Hj|].
  destruct (RunMore.non_object_state_breaks_runs runtime studio array_world
              (tx "[]") (List_ []) eq_refl Hj eq_refl) as [Hl [_ Hr]].
  split; [exact Hl|]. apply Hr.
Defined.

(** ** Runs *)

Lemma run_records_its_state_witness :
  is_dict (state fresh_world) = true /\
  exists results w',
    execute_pipeline runtime studio build_feature [tx "02"; tx "99"]
      payment_params fresh_world = (Returned results, w') /\
    get (state w') (tx "current_phase") = Some (Str (tx "PIPELINE:build_feature")) /\
    get (state w') (tx "project_name") = get (state fresh_world) (tx "project_name").
Proof.
  split; [reflexivity|].
  destruct (RunMore.run_records_its_state runtime studio build_feature
              [tx "02"; tx "99"] payment_params fresh_world eq_refl)
    as [results [w' [Hrun [Hphase [_ [_ [_ [Hkeep _]]]]]]]].
  exists results, w'. split; [exact Hrun|]. split; [exact Hphase|].
  apply Hkeep. intros Hin. vm_compute in Hin.
  destruct Hin as [E|[E|[E|[E|[]]]]]; discriminate E.
Defined.

Lemma run_accounts_for_every_agent_witness :
  is_dict (state fresh_world) = true /\
  exists results w',
    execute_pipeline runtime studio build_feature [tx "02"; tx "99"]
      payment_params fresh_world = (Returned results, w') /\
    (length (RunResult.agents_executed results) +
     length (RunResult.errors results) = 2)%nat.
Proof.
  split; [reflexivity|].
  destruct (RunMore.run_accounts_for_every_agent runtime studio build_feature
              [tx "02"; tx "99"] payment_params fresh_world eq_refl)
    as [results [w' [Hrun [Hlen _]]]].
  exists results, w'. split; [exact Hrun|exact Hlen].
Defined.

Lemma run_steps_are_well_formed_witness :
  is_dict (state fresh_world) = true /\
  exists results w',
    execute_pipeline runtime studio build_feature [tx "02"; tx "99"]
      payment_params fresh_world = (Returned results, w') /\
    Forall (well_formed_step studio payment_query)
           (RunResult.agents_executed results).
Proof.
  split; [reflexivity|].
  destruct (RunMore.run_steps_are_well_formed runtime studio build_feature
              [tx "02"; tx "99"] payment_params fresh_world eq_refl)
    as [results [w' [Hrun Hw]]].
  exists results, w'. split; [exact Hrun|exact Hw].
Defined.

Lemma run_appends_to_the_session_log_witness :
  is_dict (state fresh_world) = true /\
  exists results w' rest,
    execute_pipeline runtime studio build_feature [tx "02"; tx "99"]
      payment_params fresh_world = (Returned results, w') /\
    session_file w' = Some (session_header ++ rest).
Proof.
  split; [reflexivity|].
  destruct (RunMore.run_appends_to_the_session_log runtime studio build_feature
              [tx "02"; tx "99"] payment_params fresh_world eq_refl)
    as [results [w' [Hrun [_ [_ Hnew]]]]].
  destruct (Hnew eq_refl eq_refl) as [rest Hrest].
  exists results, w', rest. split; [exact Hrun|exact Hrest].
Defined.

Lemma status_after_run_witness :
  is_dict (state fresh_world) = true /\
  exists results w' status,
    execute_pipeline runtime studio build_feature [tx "02"; tx "99"]
      payment_params fresh_world = (Returned results, w') /\
    get_status studio (state w') = Some status /\
    get status (tx "phase") = Some (Str (tx "PIPELINE:build_feature")) /\
    get status (tx "agents_registered") = Some (Int 2) /\
    get status (tx "skills_available") = Some (Int 4).
Proof.
  split; [reflexivity|].
  destruct (RunMore.status_after_run runtime studio build_feature
              [tx "02"; tx "99"] payment_params fresh_world eq_refl)
    as [results [w' [Hrun Hstatus]]].
  exists results, w'. eexists.
  split; [exact Hrun|]. split; [exact Hstatus|].
  repeat split; vm_compute; reflexivity.
Defined.

Lemma approved_request_runs_the_pipeline_witness :
  gate_passed studio payment_query approving_world (set_stdin [] approving_world) /\
  process_user_request runtime studio payment_query approving_world =
  match execute_pipeline runtime studio build_feature [tx "02"; tx "99"]
          payment_params (set_stdin [] approving_world)
  with
  | (Returned results, w') => (Returned (to_dict results), w')
  | (Raised e, w') => (Raised e, w')
  end.
Proof.
  assert (H : gate_passed studio payment_query approving_world
                (set_stdin [] approving_world)).
  { right. split; [reflexivity|]. exists (tx " Y "), [].
    split; [reflexivity|]. split; [vm_compute; reflexivity|reflexivity]. }
  split; [exact H|].
  exact (RunMore.approved_request_runs_the_pipeline runtime studio payment_query
           approving_world (set_stdin [] approving_world) H).
Defined.

End CoverageFacts.
